(** * The InVEST Workbench request router ([natcap/invest/ui_server.py])

    A shallow embedding of the Flask handlers of [ui_server.py].  Every
    handler is a computation in a small state-and-exception monad over the
    server state; the libraries the handlers call into (the InVEST model
    registry and model modules, the datastack reader and writer, GDAL, the
    [json], [pprint] and [codecs] modules, the clock) are the fields of one
    record of external operations, so that every statement below holds for
    any behaviour of these libraries. *)

From Stdlib Require Import ZArith Floats Ascii String.
From stdpp Require Import base strings list gmap pretty.

Local Open Scope string_scope.
Set Warnings "-register-all".

(** ** Python values that travel as JSON *)

(** What [request.get_json()] and [json.loads] produce: [None], booleans,
    integers, floats, strings, lists, and dictionaries with string keys.  A
    dictionary is the list of its items in insertion order (keys unique). *)
Inductive json : Type :=
  | JNull
  | JBool (b : bool)
  | JInt (z : Z)
  | JFloat (f : float)
  | JStr (s : string)
  | JArr (elems : list json)
  | JObj (items : list (string * json)).

(** Python's truth test, as used by [if vector_path:]. *)
Definition truthy (v : json) : bool :=
  match v with
  | JNull => false
  | JBool b => b
  | JInt z => negb (z =? 0)%Z
  | JFloat f => negb (PrimFloat.eqb f PrimFloat.zero)
  | JStr s => match s with EmptyString => false | String _ _ => true end
  | JArr elems => match elems with [] => false | _ :: _ => true end
  | JObj items => match items with [] => false | _ :: _ => true end
  end.

(** ** Exceptions *)

Inductive exn : Type :=
  | KeyError (key : json)
  | IndexError (msg : string)
  | TypeError (msg : string)
  | AttributeError (msg : string)
  | RuntimeError (msg : string)
  | ValueError (msg : string)
  | OSError (msg : string)
  | OtherError (name msg : string).

(** The subclasses of Python's [LookupError]. *)
Definition is_lookup_error (e : exn) : bool :=
  match e with
  | KeyError _ | IndexError _ => true
  | _ => false
  end.

Inductive outcome (A : Type) : Type :=
  | Return (a : A)
  | Raise (e : exn).
Arguments Return {A} a.
Arguments Raise {A} e.

(** ** Subscripts *)

Fixpoint assoc {V : Type} (k : string) (items : list (string * V)) : option V :=
  match items with
  | [] => None
  | (k', v) :: rest => if String.eqb k k' then Some v else assoc k rest
  end.

(** [payload[key]] for a string [key]: only a dictionary can be subscripted
    by a string. *)
Definition getitem (payload : json) (key : string) : outcome json :=
  match payload with
  | JObj items =>
      match assoc key items with
      | Some v => Return v
      | None => Raise (KeyError (JStr key))
      end
  | JStr _ => Raise (TypeError "string indices must be integers")
  | JArr _ => Raise (TypeError "list indices must be integers or slices, not str")
  | JNull => Raise (TypeError "'NoneType' object is not subscriptable")
  | JBool _ => Raise (TypeError "'bool' object is not subscriptable")
  | JInt _ => Raise (TypeError "'int' object is not subscriptable")
  | JFloat _ => Raise (TypeError "'float' object is not subscriptable")
  end.

(** [d[key]] for a dictionary [d] whose keys are strings and any Python value
    [key]: lists and dictionaries cannot be hashed, every other value that
    is not a key of [d] is a [KeyError]. *)
Definition subscript {V : Type} (find : string -> option V) (key : json) : outcome V :=
  match key with
  | JStr k =>
      match find k with
      | Some v => Return v
      | None => Raise (KeyError key)
      end
  | JArr _ => Raise (TypeError "unhashable type: 'list'")
  | JObj _ => Raise (TypeError "unhashable type: 'dict'")
  | _ => Raise (KeyError key)
  end.

(** ** Strings *)

Definition nl : string := String (ascii_of_nat 10) EmptyString.

Fixpoint intersperse_all (new s : string) : string :=
  match s with
  | EmptyString => new
  | String c rest => new +:+ String c (intersperse_all new rest)
  end.

Fixpoint replace_from (old new : string) (skip : nat) (s : string) : string :=
  match s with
  | EmptyString => EmptyString
  | String c rest =>
      match skip with
      | S k => replace_from old new k rest
      | O =>
          if String.prefix old s
          then new +:+ replace_from old new (String.length old - 1) rest
          else String c (replace_from old new 0 rest)
      end
  end.

(** [s.replace(old, new)]: every occurrence of [old], scanning from the
    left, without overlap. *)
Definition replace (old new s : string) : string :=
  match old with
  | EmptyString => intersperse_all new s
  | String _ _ => replace_from old new 0 s
  end.

(** A format string, cut at its replacement fields. *)
Inductive piece : Type :=
  | Lit (text : string)
  | Field (name : string).

(** [template.format] with keyword arguments [kw], the values already
    converted to text. *)
Fixpoint format (template : list piece) (kw : list (string * string)) : outcome string :=
  match template with
  | [] => Return ""
  | Lit text :: rest =>
      match format rest kw with
      | Return tail => Return (text +:+ tail)
      | Raise e => Raise e
      end
  | Field name :: rest =>
      match assoc name kw with
      | None => Raise (KeyError (JStr name))
      | Some v =>
          match format rest kw with
          | Return tail => Return (v +:+ tail)
          | Raise e => Raise e
          end
      end
  end.

(** The value of [textwrap.dedent] at the literal in [save_to_python]: the
    common four-space margin is removed and the closing, blank line is
    emptied. *)
Definition script_template : list piece :=
  [ Lit ("# coding=UTF-8" +:+ nl
         +:+ "# -----------------------------------------------" +:+ nl
         +:+ "# Generated by InVEST ");
    Field "invest_version"; Lit " on "; Field "today";
    Lit (nl +:+ "# Model: "); Field "modelname";
    Lit (nl +:+ nl +:+ "import "); Field "py_model";
    Lit (nl +:+ nl +:+ "args = "); Field "model_args";
    Lit (nl +:+ nl +:+ "if __name__ == '__main__':" +:+ nl +:+ "    ");
    Field "py_model"; Lit (".execute(args)" +:+ nl) ].

(** The template with its five fields filled in. *)
Definition script_text (version today modelname py_model model_args : string)
  : string :=
  "# coding=UTF-8" +:+ nl
  +:+ "# -----------------------------------------------" +:+ nl
  +:+ "# Generated by InVEST " +:+ version +:+ " on " +:+ today +:+ nl
  +:+ "# Model: " +:+ modelname +:+ nl
  +:+ nl
  +:+ "import " +:+ py_model +:+ nl
  +:+ nl
  +:+ "args = " +:+ model_args +:+ nl
  +:+ nl
  +:+ "if __name__ == '__main__':" +:+ nl
  +:+ "    " +:+ py_model +:+ ".execute(args)" +:+ nl.

(** ** The libraries behind the handlers *)

(** [natcap.invest.cli._UIMeta], the two fields the server reads. *)
Record model_ui : Type := _UIMeta { humanname : string; pyname : string }.

(** [_UI_META = collections.namedtuple('UIMeta', ['run_name', 'human_name'])] *)
Record UIMeta : Type := _UI_META { run_name : string; human_name : string }.

(** [natcap.invest.datastack.ParameterSet] *)
Record ParameterSet : Type :=
  mkParameterSet { args : json; model_name : json; invest_version : json }.

Record Externals : Type := {
  (** everything outside the process: files, the clock, imported modules *)
  World : Type;
  (** an imported model module *)
  PyModule : Type;
  (** an opened GDAL dataset *)
  Vector : Type;
  (** an opened text file *)
  FileObj : Type;
  (** [natcap.invest.cli._MODEL_UIS.items()] *)
  _MODEL_UIS : list (string * model_ui);
  (** [natcap.invest.cli.__version__] *)
  cli_version : string;
  (** [natcap.invest.cli.build_model_list_json()] *)
  build_model_list_json : World -> outcome string * World;
  (** [importlib.import_module(name=...)] *)
  import_module : json -> World -> outcome PyModule * World;
  (** [model_module.__file__] *)
  module_file : PyModule -> json;
  (** [model_module.ARGS_SPEC], when the module has one *)
  ARGS_SPEC : PyModule -> option json;
  (** [model_module.validate(args, limit_to=...)] *)
  validate : PyModule -> json -> json -> World -> outcome json * World;
  (** [gdal.OpenEx(path, gdal.OF_VECTOR)]: [None] when GDAL cannot open it *)
  gdal_OpenEx : json -> World -> outcome (option Vector) * World;
  (** [[defn.GetName() for defn in vector.GetLayer().schema]] *)
  schema_names : Vector -> World -> outcome (list string) * World;
  (** [delineateit._vector_may_contain_points(path)] *)
  _vector_may_contain_points : json -> World -> outcome bool * World;
  (** [natcap.invest.datastack.get_datastack_info(filepath)] *)
  get_datastack_info : json -> World -> outcome (json * ParameterSet) * World;
  (** [natcap.invest.datastack.build_parameter_set(args, name, path, relative=...)] *)
  build_parameter_set : json -> json -> json -> json -> World -> outcome unit * World;
  (** [codecs.open(path, 'w', encoding='utf-8')] *)
  codecs_open : json -> World -> outcome FileObj * World;
  (** [py_file.write(text)] *)
  file_write : FileObj -> string -> World -> outcome unit * World;
  (** leaving the [with] block: [close()], which flushes what was written *)
  file_close : FileObj -> World -> outcome unit * World;
  (** [datetime.now().strftime('%c')] *)
  now_strftime_c : World -> string;
  (** [request.environ.get('werkzeug.server.shutdown')] *)
  werkzeug_server_shutdown : World -> option (World -> outcome unit * World);
  (** [json.loads], [json.dumps], [pprint.pformat(_, indent=4)], [repr] *)
  json_loads : json -> outcome json;
  json_dumps : json -> string;
  pformat : json -> string;
  py_repr : json -> string
}.

(** ** The server *)

Inductive level : Type := DEBUG | ERROR.

(** What a handler does that can be seen from outside its return value. *)
Inductive event : Type :=
  | EvLog (lvl : level) (msg : string)
  | EvModelList
  | EvImport (name : json)
  | EvValidate (a limit_to : json)
  | EvOpenEx (path : json)
  | EvSchema (path : json)
  | EvProbe (path : json)
  | EvDatastackInfo (path : json)
  | EvBuildParameterSet (a modulename filepath relative : json)
  | EvOpen (path : json)
  | EvWrite (path : json) (text : string)
  | EvShutdown.

(** [MODULE_MODELRUN_MAP]: the dictionary comprehension over
    [_MODEL_UIS.items()]; a later item replaces an earlier one that has the
    same [pyname]. *)
Definition build_MODULE_MODELRUN_MAP (items : list (string * model_ui))
  : gmap string UIMeta :=
  foldl (fun m kv => <[pyname kv.2 := _UI_META kv.1 (humanname kv.2)]> m) ∅ items.

Section Server.

Variable X : Externals.

Record server : Type := Server {
  MODULE_MODELRUN_MAP : gmap string UIMeta;
  world : World X;
  trace : list event
}.

(** Module import: the globals are built, nothing has happened yet. *)
Definition startup (w : World X) : server :=
  {| MODULE_MODELRUN_MAP := build_MODULE_MODELRUN_MAP (_MODEL_UIS X);
     world := w;
     trace := [] |}.

Definition M (A : Type) : Type := server -> outcome A * server.

Definition ret {A : Type} (a : A) : M A := fun s => (Return a, s).

Definition raise {A : Type} (e : exn) : M A := fun s => (Raise e, s).

Definition bind {A B : Type} (m : M A) (k : A -> M B) : M B :=
  fun s =>
    match (m s).1 with
    | Return a => k a (m s).2
    | Raise e => (Raise e, (m s).2)
    end.

(** [try: m  except: h] with a bare [except], which catches everything. *)
Definition try_except {A : Type} (m : M A) (h : M A) : M A :=
  fun s =>
    match (m s).1 with
    | Return a => (Return a, (m s).2)
    | Raise _ => h (m s).2
    end.

(** [try: m  except KeyError: h] *)
Definition try_except_KeyError {A : Type} (m : M A) (h : M A) : M A :=
  fun s =>
    match (m s).1 with
    | Raise (KeyError _) => h (m s).2
    | r => (r, (m s).2)
    end.

Definition lift {A : Type} (r : outcome A) : M A := fun s => (r, s).

Definition emit (ev : event) : M unit :=
  fun s => (Return tt, {| MODULE_MODELRUN_MAP := MODULE_MODELRUN_MAP s;
                          world := world s;
                          trace := trace s ++ [ev] |}).

(** A call into a library: it is recorded, then it acts on the world. *)
Definition call {A : Type} (ev : event) (f : World X -> outcome A * World X) : M A :=
  fun s => ((f (world s)).1,
            {| MODULE_MODELRUN_MAP := MODULE_MODELRUN_MAP s;
               world := (f (world s)).2;
               trace := trace s ++ [ev] |}).

Definition read_world {A : Type} (f : World X -> A) : M A :=
  fun s => (Return (f (world s)), s).

Definition read_MODULE_MODELRUN_MAP : M (gmap string UIMeta) :=
  fun s => (Return (MODULE_MODELRUN_MAP s), s).

End Server.

Arguments MODULE_MODELRUN_MAP {X} s.
Arguments world {X} s.
Arguments trace {X} s.
Arguments ret {X A} a.
Arguments raise {X A} e.
Arguments bind {X A B} m k.
Arguments try_except {X A} m h.
Arguments try_except_KeyError {X A} m h.
Arguments lift {X A} r.
Arguments emit {X} ev.
Arguments call {X A} ev f.
Arguments read_world {X A} f.
Arguments read_MODULE_MODELRUN_MAP {X}.

Notation "'let*' x ':=' m 'in' k" := (bind m (fun x => k))
  (at level 10, x name, m at level 100, k at level 200).
Notation "m ';;' k" := (bind m (fun _ => k))
  (at level 100, k at level 200, right associativity).

(** ** The handlers *)

Section Handlers.

Variable X : Externals.

(** [str(v)], also what an f-string and [str.format] insert for [v]. *)
Definition py_str (v : json) : string :=
  match v with
  | JStr s => s
  | _ => py_repr X v
  end.

(** [LOGGER.debug(...)] and [LOGGER.error(...)] *)
Definition log (lvl : level) (msg : string) : M X unit := emit (EvLog lvl msg).

(** [with f as py_file: body]: the file is closed however [body] ends; an
    error of the close is raised, also in place of an error of [body]. *)
Definition with_file {A : Type} (py_file : FileObj X) (body : M X A) : M X A :=
  fun s =>
    (match (file_close X py_file (world (body s).2)).1 with
     | Raise e => Raise e
     | Return _ => (body s).1
     end,
     {| MODULE_MODELRUN_MAP := MODULE_MODELRUN_MAP (body s).2;
        world := (file_close X py_file (world (body s).2)).2;
        trace := trace (body s).2 |}).

Definition shutdown_server : M X unit :=
  let* func := read_world (werkzeug_server_shutdown X) in
  match func with
  | None => raise (RuntimeError "Not running with the Werkzeug Server")
  | Some f => call EvShutdown f
  end.

Definition get_is_ready : M X string := ret "Flask ready".

Definition shutdown : M X string :=
  shutdown_server;;
  ret "Flask server shutting down...".

Definition get_invest_models : M X string :=
  log DEBUG "get model list";;
  call EvModelList (build_model_list_json X).

Definition get_invest_getspec (request_json : json) : M X string :=
  let target_model := request_json in
  let* ui := lift (subscript (fun k => assoc k (_MODEL_UIS X)) target_model) in
  let target_module := JStr (pyname ui) in
  let* model_module := call (EvImport target_module) (import_module X target_module) in
  log DEBUG (py_str (module_file X model_module));;
  let* spec :=
    match ARGS_SPEC X model_module with
    | Some spec => ret spec
    | None => raise (AttributeError "module has no attribute 'ARGS_SPEC'")
    end in
  ret (json_dumps X spec).

Definition get_invest_validate (request_json : json) : M X string :=
  let payload := request_json in
  log DEBUG (py_str payload);;
  let* target_module := lift (getitem payload "model_module") in
  let* args_text := lift (getitem payload "args") in
  let* args_dict := lift (json_loads X args_text) in
  log DEBUG (py_str args_dict);;
  let* limit_to :=
    try_except_KeyError (lift (getitem payload "limit_to")) (ret JNull) in
  let* model_module := call (EvImport target_module) (import_module X target_module) in
  let* results :=
    call (EvValidate args_dict limit_to)
         (validate X model_module args_dict limit_to) in
  log DEBUG (py_str results);;
  ret (json_dumps X results).

Definition get_vector_colnames (request_json : json) : M X string :=
  let payload := request_json in
  log DEBUG (py_str payload);;
  let* vector_path := lift (getitem payload "vector_path") in
  let* colnames :=
    if truthy vector_path then
      try_except
        (let* vector := call (EvOpenEx vector_path) (gdal_OpenEx X vector_path) in
         match vector with
         | None =>
             raise (AttributeError "'NoneType' object has no attribute 'GetLayer'")
         | Some v => call (EvSchema vector_path) (schema_names X v)
         end)
        (log ERROR ("Could not read column names from " +:+ py_str vector_path);;
         ret [])
    else ret [] in
  let result := JObj [("colnames", JArr (JStr <$> colnames))] in
  log DEBUG (py_str result);;
  ret (json_dumps X result).

Definition get_vector_has_points (request_json : json) : M X string :=
  let payload := request_json in
  log DEBUG (py_str payload);;
  let* vector_path := lift (getitem payload "vector_path") in
  let* has_points :=
    if truthy vector_path then
      try_except
        (call (EvProbe vector_path) (_vector_may_contain_points X vector_path))
        (log ERROR ("Could not tell if vector " +:+ py_str vector_path
                    +:+ " contains points.");;
         ret true)
    else ret true in
  let result := JObj [("has_points", JBool has_points)] in
  log DEBUG (py_str result);;
  ret (json_dumps X result).

Definition post_datastack_file (request_json : json) : M X string :=
  let filepath := request_json in
  let* info := call (EvDatastackInfo filepath) (get_datastack_info X filepath) in
  let stack_type := info.1 in
  let stack_info := info.2 in
  let* registry := read_MODULE_MODELRUN_MAP in
  let* meta := lift (subscript (fun k => registry !! k) (model_name stack_info)) in
  let result_dict :=
    JObj [("type", stack_type);
          ("args", args stack_info);
          ("module_name", model_name stack_info);
          ("model_run_name", JStr (run_name meta));
          ("model_human_name", JStr (human_name meta));
          ("invest_version", invest_version stack_info)] in
  log DEBUG (py_str result_dict);;
  ret (json_dumps X result_dict).

Definition write_parameter_set_file (request_json : json) : M X string :=
  let payload := request_json in
  let* filepath := lift (getitem payload "parameterSetPath") in
  let* modulename := lift (getitem payload "moduleName") in
  let* args_text := lift (getitem payload "args") in
  let* args := lift (json_loads X args_text) in
  let* relative_paths := lift (getitem payload "relativePaths") in
  call (EvBuildParameterSet args modulename filepath relative_paths)
       (build_parameter_set X args modulename filepath relative_paths);;
  ret "parameter set saved".

(** The three formatting steps of [save_to_python] on the mapping. *)
Definition render_args (args_dict : json) : string :=
  let args := pformat X args_dict in
  let args := replace "{" ("{" +:+ nl +:+ " ") args in
  let args := replace "}" ("," +:+ nl +:+ "}") args in
  args.

Definition save_to_python (request_json : json) : M X string :=
  let payload := request_json in
  let* save_filepath := lift (getitem payload "filepath") in
  let* modelname := lift (getitem payload "modelname") in
  let* pyname := lift (getitem payload "pyname") in
  let* args_text := lift (getitem payload "args") in
  let* args_dict := lift (json_loads X args_text) in
  let* py_file := call (EvOpen save_filepath) (codecs_open X save_filepath) in
  with_file py_file
    (let args := render_args args_dict in
     let* today := read_world (now_strftime_c X) in
     let* text :=
       lift (format script_template
               [("invest_version", cli_version X);
                ("today", today);
                ("modelname", py_str modelname);
                ("py_model", py_str pyname);
                ("model_args", args)]) in
     call (EvWrite save_filepath text) (file_write X py_file text));;
  ret "python script saved".

(** ** Routes *)

Inductive request : Type :=
  | GET_ready
  | GET_shutdown
  | GET_models
  | POST_getspec (body : json)
  | POST_validate (body : json)
  | POST_colnames (body : json)
  | POST_vector_has_points (body : json)
  | POST_post_datastack_file (body : json)
  | POST_write_parameter_set_file (body : json)
  | POST_save_to_python (body : json).

Definition route (r : request) : M X string :=
  match r with
  | GET_ready => get_is_ready
  | GET_shutdown => shutdown
  | GET_models => get_invest_models
  | POST_getspec body => get_invest_getspec body
  | POST_validate body => get_invest_validate body
  | POST_colnames body => get_vector_colnames body
  | POST_vector_has_points body => get_vector_has_points body
  | POST_post_datastack_file body => post_datastack_file body
  | POST_write_parameter_set_file body => write_parameter_set_file body
  | POST_save_to_python body => save_to_python body
  end.

(** The handlers run one after the other on the requests of a list; a
    handler that raises leaves the server running.  The list is not cut at a
    shutdown request, after which the real server answers no more: [serve]
    runs every sequence the server can answer, and more. *)
Fixpoint serve (rs : list request) (s : server X) : list (outcome string) * server X :=
  match rs with
  | [] => ([], s)
  | r :: rest =>
      let answer := route r s in
      let later := serve rest answer.2 in
      (answer.1 :: later.1, later.2)
  end.

End Handlers.

Arguments py_str X v : simpl never.

(** ** What the generated script must not contain *)

Definition quote_char (c : ascii) : bool :=
  (Ascii.eqb c "'"%char || Ascii.eqb c (ascii_of_nat 34))%bool.

(** Python's lexer ends a quoted literal at the end of its line: a line
    break inside the quotes (one that no backslash precedes) is a syntax
    error.  [newline_in_literal None text] scans [text] from outside any
    literal and tells whether it meets such a line break. *)
Fixpoint newline_in_literal (inside : option ascii) (text : string) : bool :=
  match text with
  | EmptyString => false
  | String c rest =>
      match inside with
      | None =>
          newline_in_literal (if quote_char c then Some c else None) rest
      | Some q =>
          if Ascii.eqb c (ascii_of_nat 10) then true
          else if Ascii.eqb c (ascii_of_nat 92) then
            match rest with
            | EmptyString => false
            | String _ rest' => newline_in_literal (Some q) rest'
            end
          else newline_in_literal (if Ascii.eqb c q then None else Some q) rest
      end
  end.

(** ** A small instance of the libraries

    One registry of three models, a disk that keeps parameter sets and text
    files by path, one vector file.  The examples at the end of the file run
    the handlers on it. *)

Module Demo.

Definition dq : string := String (ascii_of_nat 34) EmptyString.

Record disk : Type := Disk {
  parameter_sets : list (string * (json * json));
  text_files : list (string * string)
}.

Definition empty_disk : disk := {| parameter_sets := []; text_files := [] |}.

Definition MODEL_UIS : list (string * model_ui) :=
  [ ("carbon",
     {| humanname := "Carbon Storage and Sequestration";
        pyname := "natcap.invest.carbon" |});
    ("delineateit",
     {| humanname := "DelineateIt";
        pyname := "natcap.invest.delineateit.delineateit" |});
    ("scenic_quality",
     {| humanname := "Scenic Quality";
        pyname := "natcap.invest.scenic_quality.scenic_quality" |}) ].

(** The modules that are installed: one registered model is missing. *)
Definition installed : list string :=
  [ "natcap.invest.carbon"; "natcap.invest.delineateit.delineateit" ].

Definition carbon_spec : json :=
  JObj [("model_name", JStr "Carbon Storage and Sequestration");
        ("module", JStr "natcap.invest.carbon");
        ("args", JObj [("workspace_dir", JObj [("type", JStr "directory")])])].

Definition demo_import (name : json) (w : disk) : outcome string * disk :=
  match name with
  | JStr n =>
      if existsb (String.eqb n) installed
      then (Return n, w)
      else (Raise (OtherError "ModuleNotFoundError" n), w)
  | _ => (Raise (TypeError "the module name must be str"), w)
  end.

(** A validation that asks for [workspace_dir] and nothing else. *)
Definition demo_validate (m : string) (a limit_to : json) (w : disk)
  : outcome json * disk :=
  match a with
  | JObj items =>
      match assoc "workspace_dir" items with
      | Some _ => (Return (JArr []), w)
      | None =>
          (Return (JArr [JArr [JArr [JStr "workspace_dir"];
                               JStr "Key is missing from the args dict"]]), w)
      end
  | _ => (Raise (AttributeError "args has no attribute 'keys'"), w)
  end.

Definition watersheds : string := "/data/watersheds.shp".

Definition demo_OpenEx (path : json) (w : disk)
  : outcome (option (list string)) * disk :=
  match path with
  | JStr p =>
      if String.eqb p watersheds then (Return (Some ["ws_id"; "name"]), w)
      else (Return None, w)
  | _ => (Raise (TypeError "not a string"), w)
  end.

Definition demo_may_contain_points (path : json) (w : disk) : outcome bool * disk :=
  match path with
  | JStr p =>
      if String.eqb p watersheds then (Return false, w)
      else (Raise (AttributeError "'NoneType' object has no attribute 'GetLayer'"), w)
  | _ => (Raise (TypeError "not a string"), w)
  end.

Definition demo_get_datastack_info (filepath : json) (w : disk)
  : outcome (json * ParameterSet) * disk :=
  match filepath with
  | JStr p =>
      match assoc p (parameter_sets w) with
      | Some (a, name) =>
          (Return (JStr "json",
                   {| args := a; model_name := name; invest_version := JStr "3.8.0" |}), w)
      | None => (Raise (OSError p), w)
      end
  | _ => (Raise (TypeError "expected str"), w)
  end.

Definition demo_build_parameter_set (a name filepath relative : json) (w : disk)
  : outcome unit * disk :=
  match filepath with
  | JStr p =>
      (Return tt,
       {| parameter_sets := (p, (a, name)) :: parameter_sets w;
          text_files := text_files w |})
  | _ => (Raise (TypeError "expected str"), w)
  end.

Definition demo_open (path : json) (w : disk) : outcome string * disk :=
  match path with
  | JStr p => (Return p, w)
  | _ => (Raise (TypeError "expected str"), w)
  end.

Definition demo_write (f : string) (text : string) (w : disk) : outcome unit * disk :=
  (Return tt,
   {| parameter_sets := parameter_sets w;
      text_files := (f, text) :: text_files w |}).

(** The JSON texts that the examples send, with their values. *)
Definition braced_args_text : string :=
  "{" +:+ dq +:+ "workspace_dir" +:+ dq +:+ ": "
      +:+ dq +:+ "out{1}" +:+ dq +:+ "}".

Definition braced_args : json := JObj [("workspace_dir", JStr "out{1}")].

Definition plain_args_text : string :=
  "{" +:+ dq +:+ "workspace_dir" +:+ dq +:+ ": "
      +:+ dq +:+ "/tmp/carbon" +:+ dq +:+ "}".

Definition plain_args : json := JObj [("workspace_dir", JStr "/tmp/carbon")].

Definition documents : list (string * json) :=
  [ (braced_args_text, braced_args); (plain_args_text, plain_args); ("{}", JObj []) ].

Definition demo_loads (text : json) : outcome json :=
  match text with
  | JStr t =>
      match assoc t documents with
      | Some v => Return v
      | None => Raise (ValueError "Expecting value")
      end
  | _ => Raise (TypeError "the JSON object must be str, bytes or bytearray")
  end.

(** A one-line rendering of a value with the given quote and the given names
    of the constants; it stands for [json.dumps], [repr] and [pprint.pformat]
    and agrees with them on the short values of the examples (plain strings,
    no floats). *)
Fixpoint render (q none true_ false_ : string) (v : json) : string :=
  match v with
  | JNull => none
  | JBool b => if b then true_ else false_
  | JInt z => pretty z
  | JFloat _ => "0.0"
  | JStr s => q +:+ s +:+ q
  | JArr elems =>
      "[" +:+ (fix go (l : list json) : string :=
                 match l with
                 | [] => ""
                 | x :: rest =>
                     render q none true_ false_ x
                     +:+ match rest with [] => "" | _ :: _ => ", " +:+ go rest end
                 end) elems +:+ "]"
  | JObj items =>
      "{" +:+ (fix go (l : list (string * json)) : string :=
                 match l with
                 | [] => ""
                 | (k, x) :: rest =>
                     q +:+ k +:+ q +:+ ": " +:+ render q none true_ false_ x
                     +:+ match rest with [] => "" | _ :: _ => ", " +:+ go rest end
                 end) items +:+ "}"
  end.

Definition demo_dumps : json -> string := render dq "null" "true" "false".
Definition demo_repr : json -> string := render "'" "None" "True" "False".

Definition env : Externals := {|
  World := disk;
  PyModule := string;
  Vector := list string;
  FileObj := string;
  _MODEL_UIS := MODEL_UIS;
  cli_version := "3.8.0";
  build_model_list_json := fun w => (Return (demo_dumps (JObj [])), w);
  import_module := demo_import;
  module_file := fun m => JStr ("/site-packages/" +:+ m);
  ARGS_SPEC := fun m =>
    if String.eqb m "natcap.invest.carbon" then Some carbon_spec
    else Some (JObj [("module", JStr m)]);
  validate := demo_validate;
  gdal_OpenEx := demo_OpenEx;
  schema_names := fun v w => (Return v, w);
  _vector_may_contain_points := demo_may_contain_points;
  get_datastack_info := demo_get_datastack_info;
  build_parameter_set := demo_build_parameter_set;
  codecs_open := demo_open;
  file_write := demo_write;
  file_close := fun _ w => (Return tt, w);
  now_strftime_c := fun _ => "Tue Nov  3 14:30:00 2026";
  werkzeug_server_shutdown := fun _ => None;
  json_loads := demo_loads;
  json_dumps := demo_dumps;
  pformat := demo_repr;
  py_repr := demo_repr
|}.

Definition s0 : server env := startup env empty_disk.

(** Requests of the examples. *)
Definition validate_request : json :=
  JObj [("model_module", JStr "natcap.invest.carbon");
        ("args", JStr plain_args_text)].

Definition carbon_parameter_set_request : json :=
  JObj [("parameterSetPath", JStr "/tmp/carbon.json");
        ("moduleName", JStr "natcap.invest.carbon");
        ("args", JStr plain_args_text);
        ("relativePaths", JBool false)].

Definition save_request : json :=
  JObj [("filepath", JStr "/tmp/run_carbon.py");
        ("modelname", JStr "carbon");
        ("pyname", JStr "natcap.invest.carbon");
        ("args", JStr braced_args_text)].

(** What [save_to_python] makes of [braced_args]. *)
Definition braced_rendering : string :=
  "{" +:+ nl +:+ " 'workspace_dir': 'out{" +:+ nl +:+ " 1," +:+ nl
      +:+ "}'," +:+ nl +:+ "}".

End Demo.

(** ** Vocabulary of the statements *)

(** A computation that leaves the global [MODULE_MODELRUN_MAP] as it found
    it, whatever it returns or raises. *)
Definition keeps_registry {X : Externals} {A : Type} (m : M X A) : Prop :=
  forall s, MODULE_MODELRUN_MAP (m s).2 = MODULE_MODELRUN_MAP s.

(** The state after a handler that touched nothing but the log. *)
Definition logged {X : Externals} (s : server X) (evs : list event) : server X :=
  {| MODULE_MODELRUN_MAP := MODULE_MODELRUN_MAP s;
     world := world s;
     trace := trace s ++ evs |}.

(** The two JSON objects of the vector routes. *)
Definition colnames_object (colnames : list string) : json :=
  JObj [("colnames", JArr (JStr <$> colnames))].

Definition has_points_object (has_points : bool) : json :=
  JObj [("has_points", JBool has_points)].

(** Opening a vector and reading its field names went wrong at some step:
    [gdal.OpenEx] raised, or returned [None], or the schema could not be
    read. *)
Definition read_fails (X : Externals) (path : json) (w : World X) : Prop :=
  (exists e, (gdal_OpenEx X path w).1 = Raise e)
  \/ (gdal_OpenEx X path w).1 = Return None
  \/ (exists v e, (gdal_OpenEx X path w).1 = Return (Some v)
                  /\ (schema_names X v (gdal_OpenEx X path w).2).1 = Raise e).

(** ** Vocabulary of the further properties *)

(** What the two [replace] calls of [save_to_python] make of one character. *)
Definition spread_brace (c : ascii) : string :=
  if Ascii.eqb c "{"%char then "{" +:+ nl +:+ " "
  else if Ascii.eqb c "}"%char then "," +:+ nl +:+ "}"
  else String c EmptyString.

(** One pass over a text that puts [spread_brace c] for every [c]. *)
Fixpoint spread_braces (text : string) : string :=
  match text with
  | EmptyString => EmptyString
  | String c rest => spread_brace c +:+ spread_braces rest
  end.

Fixpoint occurs (c : ascii) (text : string) : bool :=
  match text with
  | EmptyString => false
  | String c' rest => (Ascii.eqb c c' || occurs c rest)%bool
  end.

(** What is left of [get_invest_getspec] once the key is found: import the
    module of that name and give its [ARGS_SPEC]. *)
Definition spec_of_module (X : Externals) (module_name : string) (w : World X)
  : outcome string :=
  match (import_module X (JStr module_name) w).1 with
  | Raise e => Raise e
  | Return model_module =>
      match ARGS_SPEC X model_module with
      | Some spec => Return (json_dumps X spec)
      | None => Raise (AttributeError "module has no attribute 'ARGS_SPEC'")
      end
  end.

(** The payload of a route can be read: the four fields are there and the
    [args] text parses. *)
Definition save_to_python_payload (X : Externals) (payload : json) : Prop :=
  exists filepath modelname pyname args_text args_dict,
    getitem payload "filepath" = Return filepath
    /\ getitem payload "modelname" = Return modelname
    /\ getitem payload "pyname" = Return pyname
    /\ getitem payload "args" = Return args_text
    /\ json_loads X args_text = Return args_dict.

(** The small instance again, run under a Werkzeug server whose shutdown
    function returns. *)
Definition werkzeug_env : Externals := {|
  World := World Demo.env;
  PyModule := PyModule Demo.env;
  Vector := Vector Demo.env;
  FileObj := FileObj Demo.env;
  _MODEL_UIS := _MODEL_UIS Demo.env;
  cli_version := cli_version Demo.env;
  build_model_list_json := build_model_list_json Demo.env;
  import_module := import_module Demo.env;
  module_file := module_file Demo.env;
  ARGS_SPEC := ARGS_SPEC Demo.env;
  validate := validate Demo.env;
  gdal_OpenEx := gdal_OpenEx Demo.env;
  schema_names := schema_names Demo.env;
  _vector_may_contain_points := _vector_may_contain_points Demo.env;
  get_datastack_info := get_datastack_info Demo.env;
  build_parameter_set := build_parameter_set Demo.env;
  codecs_open := codecs_open Demo.env;
  file_write := file_write Demo.env;
  file_close := file_close Demo.env;
  now_strftime_c := now_strftime_c Demo.env;
  werkzeug_server_shutdown := fun _ => Some (fun w => (Return tt, w));
  json_loads := json_loads Demo.env;
  json_dumps := json_dumps Demo.env;
  pformat := pformat Demo.env;
  py_repr := py_repr Demo.env
|}.

(** The small instance again, writing to a device that is full: a write is
    buffered and returns, the flush of the close fails. *)
Definition full_device_env : Externals := {|
  World := World Demo.env;
  PyModule := PyModule Demo.env;
  Vector := Vector Demo.env;
  FileObj := FileObj Demo.env;
  _MODEL_UIS := _MODEL_UIS Demo.env;
  cli_version := cli_version Demo.env;
  build_model_list_json := build_model_list_json Demo.env;
  import_module := import_module Demo.env;
  module_file := module_file Demo.env;
  ARGS_SPEC := ARGS_SPEC Demo.env;
  validate := validate Demo.env;
  gdal_OpenEx := gdal_OpenEx Demo.env;
  schema_names := schema_names Demo.env;
  _vector_may_contain_points := _vector_may_contain_points Demo.env;
  get_datastack_info := get_datastack_info Demo.env;
  build_parameter_set := build_parameter_set Demo.env;
  codecs_open := codecs_open Demo.env;
  file_write := fun _ _ w => (Return tt, w);
  file_close := fun _ w => (Raise (OSError "No space left on device"), w);
  now_strftime_c := now_strftime_c Demo.env;
  werkzeug_server_shutdown := werkzeug_server_shutdown Demo.env;
  json_loads := json_loads Demo.env;
  json_dumps := json_dumps Demo.env;
  pformat := pformat Demo.env;
  py_repr := py_repr Demo.env
|}.

(** Requests to save the script of the plain arguments. *)
Definition plain_save_request (filepath : json) : json :=
  JObj [("filepath", filepath);
        ("modelname", JStr "carbon");
        ("pyname", JStr "natcap.invest.carbon");
        ("args", JStr Demo.plain_args_text)].

(** ** The registry is built once and never written *)

Section Frame.

Variable X : Externals.

Lemma keeps_ret {A : Type} (a : A) : keeps_registry (X:=X) (ret a).
Proof. intros s. reflexivity. Qed.

Lemma keeps_raise {A : Type} (e : exn) : keeps_registry (X:=X) (A:=A) (raise e).
Proof. intros s. reflexivity. Qed.

Lemma keeps_lift {A : Type} (r : outcome A) : keeps_registry (X:=X) (lift r).
Proof. intros s. reflexivity. Qed.

Lemma keeps_emit (ev : event) : keeps_registry (X:=X) (emit ev).
Proof. intros s. reflexivity. Qed.

Lemma keeps_call {A : Type} (ev : event) (f : World X -> outcome A * World X) :
  keeps_registry (call ev f).
Proof. intros s. reflexivity. Qed.

Lemma keeps_read_world {A : Type} (f : World X -> A) :
  keeps_registry (read_world f).
Proof. intros s. reflexivity. Qed.

Lemma keeps_read_MODULE_MODELRUN_MAP :
  keeps_registry (X:=X) read_MODULE_MODELRUN_MAP.
Proof. intros s. reflexivity. Qed.

Lemma keeps_bind {A B : Type} (m : M X A) (k : A -> M X B) :
  keeps_registry m -> (forall a, keeps_registry (k a)) ->
  keeps_registry (bind m k).
Proof.
  intros Hm Hk s. unfold bind.
  destruct (m s).1 as [a|e] eqn:E; cbn.
  - rewrite Hk. apply Hm.
  - apply Hm.
Qed.

Lemma keeps_try_except {A : Type} (m h : M X A) :
  keeps_registry m -> keeps_registry h -> keeps_registry (try_except m h).
Proof.
  intros Hm Hh s. unfold try_except.
  destruct (m s).1 as [a|e]; cbn.
  - apply Hm.
  - rewrite Hh. apply Hm.
Qed.

Lemma keeps_try_except_KeyError {A : Type} (m h : M X A) :
  keeps_registry m -> keeps_registry h ->
  keeps_registry (try_except_KeyError m h).
Proof.
  intros Hm Hh s. unfold try_except_KeyError.
  destruct (m s).1 as [a|[]]; cbn; try apply Hm.
  rewrite Hh. apply Hm.
Qed.

Lemma keeps_with_file {A : Type} (f : FileObj X) (body : M X A) :
  keeps_registry body -> keeps_registry (with_file X f body).
Proof. intros Hb s. unfold with_file. cbn. apply Hb. Qed.

End Frame.

Create HintDb frame.
#[export] Hint Resolve keeps_ret keeps_raise keeps_lift keeps_emit keeps_call
  keeps_read_world keeps_read_MODULE_MODELRUN_MAP keeps_with_file
  keeps_try_except keeps_try_except_KeyError : frame.

(** Walks down a handler: every bind, every branch. *)
Ltac frame_step :=
  match goal with
  | |- keeps_registry (bind _ _) => apply keeps_bind; [ | intros ? ]
  | |- keeps_registry (match ?x with _ => _ end) => destruct x
  | |- keeps_registry (with_file _ _ _) => apply keeps_with_file
  | |- keeps_registry (try_except _ _) => apply keeps_try_except
  | |- keeps_registry (try_except_KeyError _ _) => apply keeps_try_except_KeyError
  | |- keeps_registry _ => solve [ auto with frame ]
  end.

Lemma route_keeps_registry (X : Externals) (r : request) :
  keeps_registry (route X r).
Proof.
  destruct r; cbn [route];
    unfold get_is_ready, shutdown, shutdown_server, get_invest_models,
      get_invest_getspec, get_invest_validate, get_vector_colnames,
      get_vector_has_points, post_datastack_file, write_parameter_set_file,
      save_to_python, log;
    cbv zeta; repeat frame_step.
Qed.

Lemma serve_keeps_registry (X : Externals) (rs : list request) (s : server X) :
  MODULE_MODELRUN_MAP (serve X rs s).2 = MODULE_MODELRUN_MAP s.
Proof.
  revert s. induction rs as [|r rest IH]; intros s; cbn.
  - reflexivity.
  - rewrite IH. apply route_keeps_registry.
Qed.

(** C8: the registry is the value built at start-up from the library's
    [_MODEL_UIS], and whatever requests were served before, in whatever
    order and with whatever outcome, the next handler finds exactly that
    value. *)
Theorem registry_fixed_at_startup (X : Externals) (w : World X)
    (rs : list request) (n : nat) :
  MODULE_MODELRUN_MAP (serve X (take n rs) (startup X w)).2
  = build_MODULE_MODELRUN_MAP (_MODEL_UIS X).
Proof. rewrite serve_keeps_registry. reflexivity. Qed.

(** ** The health route *)

(** C10: in every state the health route answers ['Flask ready'] and leaves
    the state (registry, world, trace) as it was. *)
Theorem get_is_ready_fixed (X : Externals) (s : server X) :
  route X GET_ready s = (Return "Flask ready", s).
Proof. reflexivity. Qed.

(** ** Running a handler *)

Ltac run_handler :=
  unfold get_invest_getspec, get_invest_validate, get_vector_colnames,
    get_vector_has_points, post_datastack_file, write_parameter_set_file,
    save_to_python, log, logged;
  cbv zeta;
  unfold bind, try_except, try_except_KeyError, with_file, call, emit, lift,
    ret, raise, read_world, read_MODULE_MODELRUN_MAP;
  cbn [fst snd getitem subscript MODULE_MODELRUN_MAP world trace].

(** ** The argument-specification route *)

(** C4: a key that [_MODEL_UIS] does not have makes the handler raise
    [KeyError] on that key, with nothing done and nothing returned; a key it
    has makes the handler import the registered module and return
    [json.dumps] of its [ARGS_SPEC]; a failed import is raised unchanged. *)
Theorem getspec_by_registry (X : Externals) (key : string) (s : server X) :
  (assoc key (_MODEL_UIS X) = None ->
   get_invest_getspec X (JStr key) s = (Raise (KeyError (JStr key)), s))
  /\ (forall ui model_module w' spec,
        assoc key (_MODEL_UIS X) = Some ui ->
        import_module X (JStr (pyname ui)) (world s) = (Return model_module, w') ->
        ARGS_SPEC X model_module = Some spec ->
        (get_invest_getspec X (JStr key) s).1 = Return (json_dumps X spec))
  /\ (forall ui e w',
        assoc key (_MODEL_UIS X) = Some ui ->
        import_module X (JStr (pyname ui)) (world s) = (Raise e, w') ->
        (get_invest_getspec X (JStr key) s).1 = Raise e).
Proof.
  repeat split.
  - intros Hnone. run_handler. rewrite Hnone. reflexivity.
  - intros ui m w' spec Hui Himp Hspec. run_handler.
    rewrite Hui. cbn. rewrite Himp. cbn. rewrite Hspec. reflexivity.
  - intros ui e w' Hui Himp. run_handler.
    rewrite Hui. cbn. rewrite Himp. reflexivity.
Qed.

Lemma getspec_by_registry_witness :
  get_invest_getspec Demo.env (JStr "habitat_quality") Demo.s0
  = (Raise (KeyError (JStr "habitat_quality")), Demo.s0)
  /\ (get_invest_getspec Demo.env (JStr "carbon") Demo.s0).1
     = Return (json_dumps Demo.env Demo.carbon_spec)
  /\ (get_invest_getspec Demo.env (JStr "scenic_quality") Demo.s0).1
     = Raise (OtherError "ModuleNotFoundError"
                "natcap.invest.scenic_quality.scenic_quality").
Proof.
  split; [ | split ].
  - apply (proj1 (getspec_by_registry Demo.env "habitat_quality" Demo.s0)).
    reflexivity.
  - apply (proj1 (proj2 (getspec_by_registry Demo.env "carbon" Demo.s0))
             {| humanname := "Carbon Storage and Sequestration";
                pyname := "natcap.invest.carbon" |}
             "natcap.invest.carbon" Demo.empty_disk Demo.carbon_spec);
      reflexivity.
  - apply (proj2 (proj2 (getspec_by_registry Demo.env "scenic_quality" Demo.s0))
             {| humanname := "Scenic Quality";
                pyname := "natcap.invest.scenic_quality.scenic_quality" |}
             _ Demo.empty_disk);
      reflexivity.
Defined.

(** ** The validation route *)

(** C5: on a payload with [model_module] and [args] (a JSON text that
    parses), the handler imports the named module and calls its [validate]
    on the parsed arguments with [limit_to] the payload's field, or [None]
    when the payload has none; what [validate] returns is returned through
    [json.dumps], and what the import or [validate] raises is raised. *)
Theorem validate_passes_through (X : Externals) (items : list (string * json))
    (target_module args_text args_dict : json) (s : server X) :
  assoc "model_module" items = Some target_module ->
  assoc "args" items = Some args_text ->
  json_loads X args_text = Return args_dict ->
  let limit_to := default JNull (assoc "limit_to" items) in
  let imported := import_module X target_module (world s) in
  let answer := get_invest_validate X (JObj items) s in
  match imported.1 with
  | Raise e => answer.1 = Raise e
  | Return model_module =>
      let validated := validate X model_module args_dict limit_to imported.2 in
      In (EvValidate args_dict limit_to) (trace answer.2)
      /\ match validated.1 with
         | Raise e => answer.1 = Raise e
         | Return results => answer.1 = Return (json_dumps X results)
         end
  end.
Proof.
  intros Hmod Hargs Hloads limit_to imported answer.
  subst limit_to imported answer. run_handler.
  rewrite Hmod, Hargs. cbn. rewrite Hloads. cbn.
  destruct (assoc "limit_to" items) as [lim|]; cbn;
    destruct (import_module X target_module (world s)).1 as [m|e]; cbn;
    try reflexivity.
  - split.
    + destruct (validate X m args_dict lim _).1; cbn;
        rewrite !in_app_iff; cbn; tauto.
    + destruct (validate X m args_dict lim _).1; reflexivity.
  - split.
    + destruct (validate X m args_dict JNull _).1; cbn;
        rewrite !in_app_iff; cbn; tauto.
    + destruct (validate X m args_dict JNull _).1; reflexivity.
Qed.

Lemma validate_passes_through_witness :
  In (EvValidate Demo.plain_args JNull)
     (trace (get_invest_validate Demo.env Demo.validate_request Demo.s0).2)
  /\ (get_invest_validate Demo.env Demo.validate_request Demo.s0).1
     = Return (json_dumps Demo.env (JArr [])).
Proof.
  exact (validate_passes_through Demo.env
           [("model_module", JStr "natcap.invest.carbon");
            ("args", JStr Demo.plain_args_text)]
           (JStr "natcap.invest.carbon") (JStr Demo.plain_args_text)
           Demo.plain_args Demo.s0 eq_refl eq_refl eq_refl).
Defined.

(** ** The datastack route *)

(** The handler after a successful parse: all that is left is the lookup
    of the model name in the registry, as the handler found it. *)
Lemma post_datastack_file_run (X : Externals) (filepath : json) (s : server X)
    (stack_type : json) (stack_info : ParameterSet) (w' : World X) :
  get_datastack_info X filepath (world s) = (Return (stack_type, stack_info), w') ->
  (post_datastack_file X filepath s).1
  = match subscript (fun k => MODULE_MODELRUN_MAP s !! k) (model_name stack_info) with
    | Return meta =>
        Return (json_dumps X
                  (JObj [("type", stack_type);
                         ("args", args stack_info);
                         ("module_name", model_name stack_info);
                         ("model_run_name", JStr (run_name meta));
                         ("model_human_name", JStr (human_name meta));
                         ("invest_version", invest_version stack_info)]))
    | Raise e => Raise e
    end.
Proof.
  intros Hinfo. run_handler. rewrite Hinfo. cbn [fst snd].
  destruct (subscript _ (model_name stack_info)); reflexivity.
Qed.

(** C6: when the file parses and names a model, the handler looks the name
    up in [MODULE_MODELRUN_MAP]: a registered name gives the object of
    exactly six fields, the run name and the human name being those of the
    registry entry; a name that is not registered is a [KeyError]. *)
Theorem post_datastack_file_by_registry (X : Externals) (filepath : json)
    (s : server X) (stack_type : json) (stack_info : ParameterSet)
    (name : string) (w' : World X) :
  get_datastack_info X filepath (world s) = (Return (stack_type, stack_info), w') ->
  model_name stack_info = JStr name ->
  match MODULE_MODELRUN_MAP s !! name with
  | Some meta =>
      (post_datastack_file X filepath s).1
      = Return (json_dumps X
                  (JObj [("type", stack_type);
                         ("args", args stack_info);
                         ("module_name", JStr name);
                         ("model_run_name", JStr (run_name meta));
                         ("model_human_name", JStr (human_name meta));
                         ("invest_version", invest_version stack_info)]))
  | None =>
      (post_datastack_file X filepath s).1 = Raise (KeyError (JStr name))
  end.
Proof.
  intros Hinfo Hname.
  rewrite (post_datastack_file_run X filepath s _ _ _ Hinfo), Hname. cbn.
  destruct (MODULE_MODELRUN_MAP s !! name) as [meta|]; reflexivity.
Qed.

Lemma post_datastack_file_by_registry_witness :
  (post_datastack_file Demo.env (JStr "/tmp/carbon.json")
     (write_parameter_set_file Demo.env Demo.carbon_parameter_set_request
        Demo.s0).2).1
  = Return (json_dumps Demo.env
              (JObj [("type", JStr "json");
                     ("args", Demo.plain_args);
                     ("module_name", JStr "natcap.invest.carbon");
                     ("model_run_name", JStr "carbon");
                     ("model_human_name", JStr "Carbon Storage and Sequestration");
                     ("invest_version", JStr "3.8.0")])).
Proof.
  exact (post_datastack_file_by_registry Demo.env (JStr "/tmp/carbon.json")
           (write_parameter_set_file Demo.env Demo.carbon_parameter_set_request
              Demo.s0).2
           (JStr "json")
           {| args := Demo.plain_args;
              model_name := JStr "natcap.invest.carbon";
              invest_version := JStr "3.8.0" |}
           "natcap.invest.carbon" _ eq_refl eq_refl).
Defined.

(** ** The vector routes: best effort *)

Lemma truthy_string (p : string) : truthy (JStr p) = false <-> p = "".
Proof. destruct p; cbn; split; congruence. Qed.

(** C2: on a payload that has a [vector_path], the handler always returns an
    object [{colnames: L}], [L] a list of strings; on the empty path [L] is
    empty and the handler has done nothing but write its two debug lines
    (the world is untouched, no dataset was opened); whenever opening or
    reading the vector fails, [L] is empty and nothing is raised. *)
Theorem colnames_best_effort (X : Externals) (payload vector_path : json)
    (s : server X) :
  getitem payload "vector_path" = Return vector_path ->
  (exists colnames : list string,
      (get_vector_colnames X payload s).1
      = Return (json_dumps X (colnames_object colnames)))
  /\ (vector_path = JStr "" ->
      get_vector_colnames X payload s
      = (Return (json_dumps X (colnames_object [])),
         logged s [EvLog DEBUG (py_str X payload);
                   EvLog DEBUG (py_str X (colnames_object []))]))
  /\ (read_fails X vector_path (world s) ->
      (get_vector_colnames X payload s).1
      = Return (json_dumps X (colnames_object []))).
Proof.
  intros Hpath. repeat split.
  - run_handler. rewrite Hpath. cbn.
    destruct (truthy vector_path); cbn; [ | exists []; reflexivity ].
    destruct (gdal_OpenEx X vector_path (world s)).1 as [[v|]|e]; cbn;
      try (exists []; reflexivity).
    destruct (schema_names X v _).1 as [names|e]; cbn;
      [ exists names | exists [] ]; reflexivity.
  - intros ->. run_handler. rewrite Hpath. cbn.
    rewrite <- app_assoc. reflexivity.
  - intros Hfail. run_handler. rewrite Hpath. cbn.
    destruct (truthy vector_path); cbn; [ | reflexivity ].
    destruct Hfail as [[e He] | [Hnone | (v & e & Hv & He)]].
    + rewrite He. reflexivity.
    + rewrite Hnone. reflexivity.
    + rewrite Hv. cbn. rewrite He. reflexivity.
Qed.

Lemma colnames_best_effort_witness :
  (get_vector_colnames Demo.env (JObj [("vector_path", JStr "")]) Demo.s0).1
  = Return (json_dumps Demo.env (colnames_object []))
  /\ (get_vector_colnames Demo.env
        (JObj [("vector_path", JStr "/data/missing.shp")]) Demo.s0).1
     = Return (json_dumps Demo.env (colnames_object [])).
Proof.
  split.
  - exact (f_equal fst
             (proj1 (proj2 (colnames_best_effort Demo.env
                              (JObj [("vector_path", JStr "")]) (JStr "")
                              Demo.s0 eq_refl)) eq_refl)).
  - apply (proj2 (proj2 (colnames_best_effort Demo.env
                           (JObj [("vector_path", JStr "/data/missing.shp")])
                           (JStr "/data/missing.shp") Demo.s0 eq_refl))).
    right; left. reflexivity.
Defined.

(** C3: on a payload whose [vector_path] is a string, the handler always
    returns an object [{has_points: b}] and never raises: [b] is [true] when
    the string is empty (nothing is probed, the world is untouched) and when
    the probe raises, and [b] is what the probe returns when the string is
    not empty and the probe returns. *)
Theorem has_points_best_effort (X : Externals) (payload : json) (path : string)
    (s : server X) :
  getitem payload "vector_path" = Return (JStr path) ->
  let probe := _vector_may_contain_points X (JStr path) (world s) in
  (exists has_points : bool,
      (get_vector_has_points X payload s).1
      = Return (json_dumps X (has_points_object has_points)))
  /\ (path = "" ->
   get_vector_has_points X payload s
   = (Return (json_dumps X (has_points_object true)),
      logged s [EvLog DEBUG (py_str X payload);
                EvLog DEBUG (py_str X (has_points_object true))]))
  /\ (forall e, probe.1 = Raise e ->
      (get_vector_has_points X payload s).1
      = Return (json_dumps X (has_points_object true)))
  /\ (forall b, path <> "" -> probe.1 = Return b ->
      (get_vector_has_points X payload s).1
      = Return (json_dumps X (has_points_object b))).
Proof.
  intros Hpath probe. subst probe. repeat split.
  - run_handler. rewrite Hpath. cbn [fst snd].
    destruct (truthy (JStr path)); cbn; [ | exists true; reflexivity ].
    destruct (_vector_may_contain_points X (JStr path) (world s)).1 as [b|e];
      cbn; [ exists b | exists true ]; reflexivity.
  - intros ->. run_handler. rewrite Hpath. cbn.
    rewrite <- app_assoc. reflexivity.
  - intros e He. run_handler. rewrite Hpath. cbn [fst snd].
    destruct (truthy (JStr path)); cbn; [ | reflexivity ].
    rewrite He. reflexivity.
  - intros b Hne Hb. run_handler. rewrite Hpath. cbn [fst snd].
    destruct (truthy (JStr path)) eqn:Et.
    + cbn. rewrite Hb. reflexivity.
    + apply truthy_string in Et. contradiction.
Qed.

Lemma has_points_best_effort_witness :
  (get_vector_has_points Demo.env (JObj [("vector_path", JStr "")]) Demo.s0).1
  = Return (json_dumps Demo.env (has_points_object true))
  /\ (get_vector_has_points Demo.env
        (JObj [("vector_path", JStr "/data/missing.shp")]) Demo.s0).1
     = Return (json_dumps Demo.env (has_points_object true))
  /\ (get_vector_has_points Demo.env
        (JObj [("vector_path", JStr Demo.watersheds)]) Demo.s0).1
     = Return (json_dumps Demo.env (has_points_object false)).
Proof.
  split; [ | split ].
  - destruct (has_points_best_effort Demo.env (JObj [("vector_path", JStr "")])
                "" Demo.s0 eq_refl) as (_ & Hempty & _).
    exact (f_equal fst (Hempty eq_refl)).
  - destruct (has_points_best_effort Demo.env
                (JObj [("vector_path", JStr "/data/missing.shp")])
                "/data/missing.shp" Demo.s0 eq_refl) as (_ & _ & Hraise & _).
    apply (Hraise (AttributeError "'NoneType' object has no attribute 'GetLayer'")).
    reflexivity.
  - destruct (has_points_best_effort Demo.env
                (JObj [("vector_path", JStr Demo.watersheds)])
                Demo.watersheds Demo.s0 eq_refl) as (_ & _ & _ & Hprobe).
    apply (Hprobe false); [ discriminate | reflexivity ].
Defined.

(** ** The vector routes: malformed payloads *)

(** C9, as the code has it: the subscript [payload['vector_path']] comes
    before the guard, so a payload without the key makes both handlers raise
    [KeyError], a lookup error, and a payload that is not an object makes
    both raise [TypeError], which is not one; either way the handler stops
    after its first debug line, nothing is opened or probed and no default
    is returned. *)
Theorem vector_routes_reject_malformed (X : Externals) (payload : json)
    (s : server X) :
  (forall v, getitem payload "vector_path" <> Return v) ->
  exists e,
    get_vector_colnames X payload s
    = (Raise e, logged s [EvLog DEBUG (py_str X payload)])
    /\ get_vector_has_points X payload s
       = (Raise e, logged s [EvLog DEBUG (py_str X payload)])
    /\ ((exists items, payload = JObj items) ->
        e = KeyError (JStr "vector_path"))
    /\ ((forall items, payload <> JObj items) ->
        exists msg, e = TypeError msg).
Proof.
  intros Hno.
  destruct (getitem payload "vector_path") as [v|e] eqn:E;
    [ exfalso; exact (Hno v eq_refl) | ].
  exists e. repeat split.
  - run_handler. rewrite E. reflexivity.
  - run_handler. rewrite E. reflexivity.
  - intros [items ->]. cbn in E.
    destruct (assoc "vector_path" items); congruence.
  - intros Hnot. destruct payload; cbn in E;
      try (injection E as <-; eauto).
    exfalso. exact (Hnot items eq_refl).
Qed.

Lemma vector_routes_reject_malformed_witness :
  exists e,
    get_vector_colnames Demo.env (JObj [("path", JStr Demo.watersheds)]) Demo.s0
    = (Raise e,
       logged Demo.s0
         [EvLog DEBUG (py_str Demo.env (JObj [("path", JStr Demo.watersheds)]))])
    /\ is_lookup_error e = true.
Proof.
  destruct (vector_routes_reject_malformed Demo.env
              (JObj [("path", JStr Demo.watersheds)]) Demo.s0)
    as (e & Hcol & _ & Hkey & _).
  - intros v. discriminate.
  - exists e. split; [ exact Hcol | ].
    rewrite (Hkey (ex_intro _ _ eq_refl)). reflexivity.
Defined.

(** A payload that is a bare JSON string, not an object: the handler raises
    [TypeError], which is not a lookup error. *)
Lemma vector_routes_type_error_counterexample :
  (forall v, getitem (JStr Demo.watersheds) "vector_path" <> Return v)
  /\ (get_vector_colnames Demo.env (JStr Demo.watersheds) Demo.s0).1
     = Raise (TypeError "string indices must be integers")
  /\ (get_vector_has_points Demo.env (JStr Demo.watersheds) Demo.s0).1
     = Raise (TypeError "string indices must be integers")
  /\ is_lookup_error (TypeError "string indices must be integers") = false.
Proof.
  split; [ intros v; discriminate | ].
  repeat split; reflexivity.
Qed.

(** ** The generated script *)

Lemma format_script_template (version today modelname py_model model_args : string) :
  format script_template
    [("invest_version", version); ("today", today); ("modelname", modelname);
     ("py_model", py_model); ("model_args", model_args)]
  = Return (script_text version today modelname py_model model_args).
Proof. reflexivity. Qed.

(** What the handler does once the payload is read and the file is open:
    one write, of the template filled with the library version, the date,
    the model name, the module name (twice: after [import] and before
    [.execute(args)]) and the rendered mapping after [args = ]. *)
Lemma save_to_python_writes (X : Externals) (payload : json)
    (filepath modelname pyname args_text args_dict : json) (s : server X)
    (py_file : FileObj X) (w1 : World X) :
  getitem payload "filepath" = Return filepath ->
  getitem payload "modelname" = Return modelname ->
  getitem payload "pyname" = Return pyname ->
  getitem payload "args" = Return args_text ->
  json_loads X args_text = Return args_dict ->
  codecs_open X filepath (world s) = (Return py_file, w1) ->
  trace (save_to_python X payload s).2
  = (trace s ++ [EvOpen filepath;
                 EvWrite filepath
                   (script_text (cli_version X) (now_strftime_c X w1)
                      (py_str X modelname) (py_str X pyname)
                      (render_args X args_dict))])%list.
Proof.
  intros Hfile Hmodel Hpy Hargs Hloads Hopen. run_handler.
  rewrite Hfile, Hmodel, Hpy, Hargs. cbn [fst snd]. rewrite Hloads, Hopen.
  cbn [fst snd world]. rewrite format_script_template. cbn [fst snd trace].
  destruct (file_write X py_file _ w1).1; cbn [fst snd world trace];
    destruct (file_close X py_file _).1; cbn [fst snd world trace];
    rewrite <- app_assoc; reflexivity.
Qed.

(** C1, where the code departs from it: the two [replace] calls rewrite
    every brace of the rendered mapping, also a brace inside a value.  For
    the arguments [{'workspace_dir': 'out{1}'}], which [pprint] renders on
    one line, the text written after [args = ] has a line break inside the
    quotes of the value: the script does not bind [args] to the mapping
    that was sent, it is not a Python program at all. *)
Theorem save_to_python_breaks_braced_value (X : Externals) (payload : json)
    (filepath modelname pyname args_text : json) (s : server X)
    (py_file : FileObj X) (w1 : World X) :
  getitem payload "filepath" = Return filepath ->
  getitem payload "modelname" = Return modelname ->
  getitem payload "pyname" = Return pyname ->
  getitem payload "args" = Return args_text ->
  json_loads X args_text = Return Demo.braced_args ->
  pformat X Demo.braced_args = "{'workspace_dir': 'out{1}'}" ->
  codecs_open X filepath (world s) = (Return py_file, w1) ->
  trace (save_to_python X payload s).2
  = (trace s ++ [EvOpen filepath;
                 EvWrite filepath
                   (script_text (cli_version X) (now_strftime_c X w1)
                      (py_str X modelname) (py_str X pyname)
                      Demo.braced_rendering)])%list
  /\ newline_in_literal None Demo.braced_rendering = true
  /\ newline_in_literal None (pformat X Demo.braced_args) = false.
Proof.
  intros Hfile Hmodel Hpy Hargs Hloads Hpformat Hopen.
  rewrite (save_to_python_writes X payload filepath modelname pyname args_text
             Demo.braced_args s py_file w1) by assumption.
  unfold render_args. rewrite Hpformat. repeat split; reflexivity.
Qed.

Lemma save_to_python_breaks_braced_value_witness :
  trace (save_to_python Demo.env Demo.save_request Demo.s0).2
  = [EvOpen (JStr "/tmp/run_carbon.py");
     EvWrite (JStr "/tmp/run_carbon.py")
       (script_text "3.8.0" "Tue Nov  3 14:30:00 2026" "carbon"
          "natcap.invest.carbon" Demo.braced_rendering)]
  /\ newline_in_literal None Demo.braced_rendering = true
  /\ newline_in_literal None (pformat Demo.env Demo.braced_args) = false.
Proof.
  exact (save_to_python_breaks_braced_value Demo.env Demo.save_request
           (JStr "/tmp/run_carbon.py") (JStr "carbon")
           (JStr "natcap.invest.carbon") (JStr Demo.braced_args_text)
           Demo.s0 "/tmp/run_carbon.py" Demo.empty_disk
           eq_refl eq_refl eq_refl eq_refl eq_refl eq_refl eq_refl).
Defined.

(** * Further properties of the server *)

(** ** What [MODULE_MODELRUN_MAP] holds *)

Lemma build_MODULE_MODELRUN_MAP_snoc (items : list (string * model_ui))
    (k : string) (v : model_ui) (p : string) :
  build_MODULE_MODELRUN_MAP (items ++ [(k, v)]) !! p
  = if decide (pyname v = p) then Some (_UI_META k (humanname v))
    else build_MODULE_MODELRUN_MAP items !! p.
Proof.
  unfold build_MODULE_MODELRUN_MAP. rewrite foldl_snoc. cbn.
  rewrite lookup_insert. reflexivity.
Qed.

Lemma assoc_unique_key {V : Type} (items : list (string * V)) (k : string) (v : V) :
  NoDup items.*1 -> (k, v) ∈ items -> assoc k items = Some v.
Proof.
  induction items as [|[k' v'] rest IH]; cbn; intros Hnd Hin.
  - inversion Hin.
  - apply NoDup_cons in Hnd as [Hfresh Hnd].
    apply elem_of_cons in Hin as [[= -> ->]|Hin].
    + rewrite String.eqb_refl. reflexivity.
    + destruct (String.eqb_spec k k') as [->|_]; [ | auto ].
      exfalso. apply Hfresh. apply list_elem_of_fmap. exists (k', v). auto.
Qed.

Lemma registry_entry_origin (items : list (string * model_ui)) (p : string)
    (meta : UIMeta) :
  build_MODULE_MODELRUN_MAP items !! p = Some meta ->
  exists k v, (k, v) ∈ items /\ pyname v = p /\ meta = _UI_META k (humanname v).
Proof.
  induction items as [|[k v] items IH] using rev_ind.
  - change (build_MODULE_MODELRUN_MAP []) with (∅ : gmap string UIMeta).
    rewrite lookup_empty. discriminate.
  - rewrite build_MODULE_MODELRUN_MAP_snoc.
    destruct (decide (pyname v = p)) as [Hp|Hp].
    + intros [= <-]. exists k, v. rewrite elem_of_app, list_elem_of_singleton. auto.
    + intros H. destruct (IH H) as (k0 & v0 & Hin & Hpy & Hmeta).
      exists k0, v0. rewrite elem_of_app. auto.
Qed.

(** X1: the registry has an entry for a module name exactly when some model
    of [_MODEL_UIS] has that [pyname], and every entry is made of the key
    and the [humanname] of such a model. *)
Theorem registry_entries_come_from_models (items : list (string * model_ui))
    (p : string) :
  (forall meta, build_MODULE_MODELRUN_MAP items !! p = Some meta ->
     exists k v, (k, v) ∈ items /\ pyname v = p
                 /\ meta = _UI_META k (humanname v))
  /\ (build_MODULE_MODELRUN_MAP items !! p = None <->
      forall k v, (k, v) ∈ items -> pyname v <> p).
Proof.
  induction items as [|[k v] items [IHsome IHnone]] using rev_ind.
  - change (build_MODULE_MODELRUN_MAP []) with (∅ : gmap string UIMeta).
    split; [ intros meta H; rewrite lookup_empty in H; discriminate | ].
    split; [ intros _ k v Hin; inversion Hin | intros _; apply lookup_empty ].
  - split.
    + intros meta. apply registry_entry_origin.
    + rewrite build_MODULE_MODELRUN_MAP_snoc.
      destruct (decide (pyname v = p)) as [Hp|Hp]; split.
      * discriminate.
      * intros H. exfalso. apply (H k v); [ | exact Hp ].
        rewrite elem_of_app, list_elem_of_singleton. auto.
      * intros H k0 v0. rewrite elem_of_app, list_elem_of_singleton.
        intros [Hin|[= -> ->]]; [ | exact Hp ].
        exact (proj1 IHnone H k0 v0 Hin).
      * intros H. apply IHnone. intros k0 v0 Hin. apply (H k0 v0).
        rewrite elem_of_app. auto.
Qed.

Lemma registry_entries_come_from_models_witness :
  (exists k v, (k, v) ∈ Demo.MODEL_UIS /\ pyname v = "natcap.invest.carbon"
               /\ _UI_META "carbon" "Carbon Storage and Sequestration"
                  = _UI_META k (humanname v))
  /\ forall k v, (k, v) ∈ Demo.MODEL_UIS -> pyname v <> "natcap.invest.utils".
Proof.
  split.
  - apply (proj1 (registry_entries_come_from_models Demo.MODEL_UIS
                    "natcap.invest.carbon")).
    vm_compute. reflexivity.
  - apply (proj1 (proj2 (registry_entries_come_from_models Demo.MODEL_UIS
                           "natcap.invest.utils"))).
    vm_compute. reflexivity.
Defined.

(** X2: when no two models share a [pyname], every model of [_MODEL_UIS] is
    found in the registry under its [pyname], with its own key as run name
    and its own [humanname]. *)
Theorem registry_finds_every_model (items : list (string * model_ui))
    (k : string) (v : model_ui) :
  NoDup (pyname <$> items.*2) ->
  (k, v) ∈ items ->
  build_MODULE_MODELRUN_MAP items !! pyname v = Some (_UI_META k (humanname v)).
Proof.
  induction items as [|[k' v'] items IH] using rev_ind; intros Hnd Hin.
  - inversion Hin.
  - rewrite build_MODULE_MODELRUN_MAP_snoc.
    rewrite !fmap_app in Hnd. apply NoDup_app in Hnd as (Hnd & Hfresh & _).
    apply elem_of_app in Hin as [Hin|Hin].
    + destruct (decide (pyname v' = pyname v)) as [Heq|_]; [ | auto ].
      exfalso. apply (Hfresh (pyname v)).
      * apply list_elem_of_fmap. exists v. split; [ reflexivity | ].
        apply list_elem_of_fmap. exists (k, v). auto.
      * cbn. rewrite Heq. apply list_elem_of_singleton. reflexivity.
    + apply list_elem_of_singleton in Hin as [= -> ->].
      rewrite decide_True; reflexivity.
Qed.

Lemma registry_finds_every_model_witness :
  build_MODULE_MODELRUN_MAP Demo.MODEL_UIS !! "natcap.invest.delineateit.delineateit"
  = Some (_UI_META "delineateit" "DelineateIt").
Proof.
  apply (registry_finds_every_model Demo.MODEL_UIS "delineateit"
           {| humanname := "DelineateIt";
              pyname := "natcap.invest.delineateit.delineateit" |}).
  - apply (bool_decide_unpack _). vm_compute. reflexivity.
  - apply list_elem_of_In. cbn. auto.
Defined.

(** ** From a datastack to the argument specification *)

(** X3: the run name that the datastack route answers with is a key that
    the argument-specification route knows, and leads it to the very module
    the datastack names: the two registries, one keyed by module name and
    one by run name, agree (the keys of [_MODEL_UIS] are those of a
    dictionary, and the registry is the one built at start-up). *)
Theorem datastack_run_name_has_its_spec (X : Externals) (filepath : json)
    (s : server X) (stack_type : json) (stack_info : ParameterSet)
    (p : string) (w' : World X) (answer : string) :
  NoDup (_MODEL_UIS X).*1 ->
  MODULE_MODELRUN_MAP s = build_MODULE_MODELRUN_MAP (_MODEL_UIS X) ->
  get_datastack_info X filepath (world s) = (Return (stack_type, stack_info), w') ->
  model_name stack_info = JStr p ->
  (post_datastack_file X filepath s).1 = Return answer ->
  exists meta,
    answer = json_dumps X
               (JObj [("type", stack_type);
                      ("args", args stack_info);
                      ("module_name", JStr p);
                      ("model_run_name", JStr (run_name meta));
                      ("model_human_name", JStr (human_name meta));
                      ("invest_version", invest_version stack_info)])
    /\ forall s' : server X,
         (get_invest_getspec X (JStr (run_name meta)) s').1
         = spec_of_module X p (world s').
Proof.
  intros Hkeys Hreg Hinfo Hname.
  rewrite (post_datastack_file_run X filepath s _ _ _ Hinfo), Hname. cbn.
  destruct (MODULE_MODELRUN_MAP s !! p) as [meta|] eqn:Hmeta; [ | discriminate ].
  intros [= <-]. exists meta. split; [ reflexivity | ].
  rewrite Hreg in Hmeta.
  destruct (registry_entry_origin _ _ _ Hmeta) as (k & v & Hin & Hpy & ->).
  intros s'. run_handler. cbn [run_name].
  rewrite (assoc_unique_key _ _ _ Hkeys Hin). cbn [fst snd]. rewrite Hpy.
  unfold spec_of_module.
  destruct (import_module X (JStr p) (world s')).1 as [m|e]; cbn [fst snd];
    [ | reflexivity ].
  destruct (ARGS_SPEC X m); reflexivity.
Qed.

Lemma datastack_run_name_has_its_spec_witness :
  exists meta,
    (post_datastack_file Demo.env (JStr "/tmp/carbon.json")
       (write_parameter_set_file Demo.env Demo.carbon_parameter_set_request
          Demo.s0).2).1
    = Return (json_dumps Demo.env
                (JObj [("type", JStr "json");
                       ("args", Demo.plain_args);
                       ("module_name", JStr "natcap.invest.carbon");
                       ("model_run_name", JStr (run_name meta));
                       ("model_human_name", JStr (human_name meta));
                       ("invest_version", JStr "3.8.0")]))
    /\ (get_invest_getspec Demo.env (JStr (run_name meta)) Demo.s0).1
       = Return (json_dumps Demo.env Demo.carbon_spec).
Proof.
  destruct (datastack_run_name_has_its_spec Demo.env (JStr "/tmp/carbon.json")
              (write_parameter_set_file Demo.env Demo.carbon_parameter_set_request
                 Demo.s0).2
              (JStr "json")
              {| args := Demo.plain_args;
                 model_name := JStr "natcap.invest.carbon";
                 invest_version := JStr "3.8.0" |}
              "natcap.invest.carbon" _ _
              ltac:(apply (bool_decide_unpack _); vm_compute; reflexivity)
              eq_refl eq_refl eq_refl eq_refl)
    as (meta & Hanswer & Hspec).
  exists meta. split.
  - cbn [args invest_version] in Hanswer. rewrite <- Hanswer. reflexivity.
  - rewrite (Hspec Demo.s0). reflexivity.
Defined.

(** ** The argument-specification route on other payloads *)

(** X4: whatever the payload is, if it is not a string that is a key of
    [_MODEL_UIS] the handler raises at the subscript, [TypeError] for a list
    or a dictionary (they cannot be hashed) and [KeyError] on the payload
    otherwise, and nothing is imported: the state is as it was. *)
Theorem getspec_rejects_other_payloads (X : Externals) (payload : json)
    (s : server X) :
  (forall k, payload = JStr k -> assoc k (_MODEL_UIS X) = None) ->
  exists e,
    get_invest_getspec X payload s = (Raise e, s)
    /\ match payload with
       | JArr _ | JObj _ => exists msg, e = TypeError msg
       | _ => e = KeyError payload
       end.
Proof.
  intros Hkey. run_handler.
  destruct payload as [ | | | |k| | ]; cbn; eauto.
  rewrite (Hkey k eq_refl). cbn. eauto.
Qed.

Lemma getspec_rejects_other_payloads_witness :
  exists e,
    get_invest_getspec Demo.env (JArr [JStr "carbon"]) Demo.s0 = (Raise e, Demo.s0)
    /\ exists msg, e = TypeError msg.
Proof.
  apply (getspec_rejects_other_payloads Demo.env (JArr [JStr "carbon"]) Demo.s0).
  intros k. discriminate.
Defined.

(** ** The shutdown route *)

(** X5: when the request carries no Werkzeug shutdown function the route
    raises [RuntimeError], answers nothing and changes nothing; when it
    carries one, the function is called once, and the route answers
    ['Flask server shutting down...'] if the function returns and raises
    what the function raises otherwise. *)
Theorem shutdown_needs_werkzeug (X : Externals) (s : server X) :
  (werkzeug_server_shutdown X (world s) = None ->
   shutdown X s
   = (Raise (RuntimeError "Not running with the Werkzeug Server"), s))
  /\ (forall func, werkzeug_server_shutdown X (world s) = Some func ->
      shutdown X s
      = (match (func (world s)).1 with
         | Return _ => Return "Flask server shutting down..."
         | Raise e => Raise e
         end,
         {| MODULE_MODELRUN_MAP := MODULE_MODELRUN_MAP s;
            world := (func (world s)).2;
            trace := trace s ++ [EvShutdown] |})).
Proof.
  split.
  - intros Hnone. unfold shutdown, shutdown_server. run_handler.
    rewrite Hnone. reflexivity.
  - intros func Hfunc. unfold shutdown, shutdown_server. run_handler.
    rewrite Hfunc. cbn.
    destruct (func (world s)).1; reflexivity.
Qed.

Lemma shutdown_needs_werkzeug_witness :
  shutdown Demo.env Demo.s0
  = (Raise (RuntimeError "Not running with the Werkzeug Server"), Demo.s0)
  /\ (shutdown werkzeug_env (startup werkzeug_env Demo.empty_disk)).1
     = Return "Flask server shutting down...".
Proof.
  split.
  - apply (proj1 (shutdown_needs_werkzeug Demo.env Demo.s0)). reflexivity.
  - exact (f_equal fst
             (proj2 (shutdown_needs_werkzeug werkzeug_env
                       (startup werkzeug_env Demo.empty_disk))
                (fun w => (Return tt, w)) eq_refl)).
Defined.

(** ** The validation route on payloads it cannot read *)

(** X6: a payload without [model_module], or without [args], or whose
    [args] text [json.loads] refuses, makes the handler raise that error
    after its first debug line: no module is imported and nothing is
    validated, the world is untouched. *)
Theorem validate_reads_before_importing (X : Externals) (payload : json)
    (s : server X) (e : exn) :
  getitem payload "model_module" = Raise e
  \/ (exists target_module,
         getitem payload "model_module" = Return target_module
         /\ getitem payload "args" = Raise e)
  \/ (exists target_module args_text,
         getitem payload "model_module" = Return target_module
         /\ getitem payload "args" = Return args_text
         /\ json_loads X args_text = Raise e) ->
  get_invest_validate X payload s
  = (Raise e, logged s [EvLog DEBUG (py_str X payload)]).
Proof.
  intros [Hmod | [(t & Hmod & Hargs) | (t & text & Hmod & Hargs & Hloads)]];
    run_handler; rewrite Hmod; cbn [fst snd]; try rewrite Hargs; cbn [fst snd];
    try rewrite Hloads; reflexivity.
Qed.

Lemma validate_reads_before_importing_witness :
  get_invest_validate Demo.env
    (JObj [("model_module", JStr "natcap.invest.carbon"); ("args", JStr "{")])
    Demo.s0
  = (Raise (ValueError "Expecting value"),
     logged Demo.s0
       [EvLog DEBUG
          (py_str Demo.env
             (JObj [("model_module", JStr "natcap.invest.carbon");
                    ("args", JStr "{")]))]).
Proof.
  apply (validate_reads_before_importing Demo.env
           (JObj [("model_module", JStr "natcap.invest.carbon"); ("args", JStr "{")])
           Demo.s0 (ValueError "Expecting value")).
  right; right. exists (JStr "natcap.invest.carbon"), (JStr "{").
  repeat split; reflexivity.
Defined.

(** X7: a payload that says [limit_to: null] is validated as one that does
    not mention [limit_to]: same answer or error, same effect on the world. *)
Theorem validate_null_limit_is_no_limit (X : Externals)
    (items : list (string * json)) (s : server X) :
  assoc "limit_to" items = None ->
  (get_invest_validate X (JObj (("limit_to", JNull) :: items)) s).1
  = (get_invest_validate X (JObj items) s).1
  /\ world (get_invest_validate X (JObj (("limit_to", JNull) :: items)) s).2
     = world (get_invest_validate X (JObj items) s).2.
Proof.
  intros Hnone. run_handler. cbn [assoc String.eqb Ascii.eqb Bool.eqb].
  rewrite Hnone.
  destruct (assoc "model_module" items) as [t|]; cbn; [ | auto ].
  destruct (assoc "args" items) as [text|]; cbn; [ | auto ].
  destruct (json_loads X text) as [a|e]; cbn; [ | auto ].
  destruct (import_module X t (world s)).1 as [m|e]; cbn; [ | auto ].
  destruct (validate X m a JNull _).1; cbn; auto.
Qed.

Lemma validate_null_limit_is_no_limit_witness :
  (get_invest_validate Demo.env
     (JObj [("limit_to", JNull);
            ("model_module", JStr "natcap.invest.carbon");
            ("args", JStr Demo.plain_args_text)]) Demo.s0).1
  = (get_invest_validate Demo.env Demo.validate_request Demo.s0).1.
Proof.
  exact (proj1 (validate_null_limit_is_no_limit Demo.env
                  [("model_module", JStr "natcap.invest.carbon");
                   ("args", JStr Demo.plain_args_text)] Demo.s0 eq_refl)).
Defined.

(** ** The write route: what its answer and its errors mean *)

(** X8: the write route answers only ['parameter set saved'], and only
    after [build_parameter_set] has returned; it has then called the
    library exactly once, with the parsed arguments, the module name, the
    path and the relative-paths flag of the payload. *)
Theorem write_parameter_set_file_answer (X : Externals) (payload : json)
    (s : server X) (answer : string) :
  (write_parameter_set_file X payload s).1 = Return answer ->
  answer = "parameter set saved"
  /\ exists path name args_text a relative,
       getitem payload "parameterSetPath" = Return path
       /\ getitem payload "moduleName" = Return name
       /\ getitem payload "args" = Return args_text
       /\ json_loads X args_text = Return a
       /\ getitem payload "relativePaths" = Return relative
       /\ build_parameter_set X a name path relative (world s)
          = (Return tt, world (write_parameter_set_file X payload s).2)
       /\ trace (write_parameter_set_file X payload s).2
          = (trace s ++ [EvBuildParameterSet a name path relative])%list.
Proof.
  run_handler.
  destruct (getitem payload "parameterSetPath") as [path|]; cbn; [ | discriminate ].
  destruct (getitem payload "moduleName") as [name|]; cbn; [ | discriminate ].
  destruct (getitem payload "args") as [text|]; cbn; [ | discriminate ].
  destruct (json_loads X text) as [a|] eqn:Hloads; cbn; [ | discriminate ].
  destruct (getitem payload "relativePaths") as [rel|]; cbn; [ | discriminate ].
  destruct (build_parameter_set X a name path rel (world s)) as [[[]|] w1] eqn:Hb;
    cbn; [ | discriminate ].
  intros [= <-]. split; [ reflexivity | ].
  exists path, name, text, a, rel. auto 10.
Qed.

Lemma write_parameter_set_file_answer_witness :
  exists path name args_text a relative,
    getitem Demo.carbon_parameter_set_request "parameterSetPath" = Return path
    /\ getitem Demo.carbon_parameter_set_request "moduleName" = Return name
    /\ getitem Demo.carbon_parameter_set_request "args" = Return args_text
    /\ json_loads Demo.env args_text = Return a
    /\ getitem Demo.carbon_parameter_set_request "relativePaths" = Return relative
    /\ build_parameter_set Demo.env a name path relative (world Demo.s0)
       = (Return tt,
          world (write_parameter_set_file Demo.env
                   Demo.carbon_parameter_set_request Demo.s0).2)
    /\ trace (write_parameter_set_file Demo.env
                Demo.carbon_parameter_set_request Demo.s0).2
       = (trace Demo.s0 ++ [EvBuildParameterSet a name path relative])%list.
Proof.
  exact (proj2 (write_parameter_set_file_answer Demo.env
                  Demo.carbon_parameter_set_request Demo.s0
                  "parameter set saved" eq_refl)).
Defined.

(** X9: an error of the write route either is the library's, raised by the
    one call of [build_parameter_set], or comes from reading the payload,
    and then nothing was called: the state is as it was. *)
Theorem write_parameter_set_file_error (X : Externals) (payload : json)
    (s : server X) (e : exn) :
  (write_parameter_set_file X payload s).1 = Raise e ->
  (write_parameter_set_file X payload s).2 = s
  \/ exists a name path relative,
       (build_parameter_set X a name path relative (world s)).1 = Raise e
       /\ trace (write_parameter_set_file X payload s).2
          = (trace s ++ [EvBuildParameterSet a name path relative])%list.
Proof.
  run_handler.
  destruct (getitem payload "parameterSetPath") as [path|]; cbn; [ | auto ].
  destruct (getitem payload "moduleName") as [name|]; cbn; [ | auto ].
  destruct (getitem payload "args") as [text|]; cbn; [ | auto ].
  destruct (json_loads X text) as [a|]; cbn; [ | auto ].
  destruct (getitem payload "relativePaths") as [rel|]; cbn; [ | auto ].
  destruct (build_parameter_set X a name path rel (world s)).1 eqn:Hb;
    cbn; [ discriminate | ].
  intros [= <-]. right. exists a, name, path, rel. auto.
Qed.

Lemma write_parameter_set_file_error_witness :
  (write_parameter_set_file Demo.env
     (JObj [("parameterSetPath", JStr "/tmp/carbon.json");
            ("moduleName", JStr "natcap.invest.carbon");
            ("args", JStr Demo.plain_args_text)]) Demo.s0).2
  = Demo.s0
  \/ exists a name path relative,
       (build_parameter_set Demo.env a name path relative (world Demo.s0)).1
       = Raise (KeyError (JStr "relativePaths"))
       /\ trace (write_parameter_set_file Demo.env
                   (JObj [("parameterSetPath", JStr "/tmp/carbon.json");
                          ("moduleName", JStr "natcap.invest.carbon");
                          ("args", JStr Demo.plain_args_text)]) Demo.s0).2
          = (trace Demo.s0 ++ [EvBuildParameterSet a name path relative])%list.
Proof.
  exact (write_parameter_set_file_error Demo.env
           (JObj [("parameterSetPath", JStr "/tmp/carbon.json");
                  ("moduleName", JStr "natcap.invest.carbon");
                  ("args", JStr Demo.plain_args_text)]) Demo.s0
           (KeyError (JStr "relativePaths")) eq_refl).
Defined.

(** ** The script route: when the file is touched *)

(** X10: [save_to_python] reads its whole payload before it opens the file:
    when a field is missing or the [args] text does not parse, the handler
    raises and the state is as it was, so no file has been opened (and
    none emptied). *)
Theorem save_to_python_reads_before_opening (X : Externals) (payload : json)
    (s : server X) :
  ~ save_to_python_payload X payload ->
  exists e, save_to_python X payload s = (Raise e, s).
Proof.
  intros Hbad. run_handler.
  destruct (getitem payload "filepath") as [filepath|e] eqn:Hfile; cbn; [ | eauto ].
  destruct (getitem payload "modelname") as [modelname|e] eqn:Hmodel; cbn; [ | eauto ].
  destruct (getitem payload "pyname") as [pyname|e] eqn:Hpy; cbn; [ | eauto ].
  destruct (getitem payload "args") as [text|e] eqn:Hargs; cbn; [ | eauto ].
  destruct (json_loads X text) as [d|e] eqn:Hloads; cbn; [ | eauto ].
  exfalso. apply Hbad. exists filepath, modelname, pyname, text, d. auto.
Qed.

Lemma save_to_python_reads_before_opening_witness :
  exists e,
    save_to_python Demo.env
      (JObj [("filepath", JStr "/tmp/run_carbon.py");
             ("modelname", JStr "carbon");
             ("pyname", JStr "natcap.invest.carbon")]) Demo.s0
    = (Raise e, Demo.s0).
Proof.
  apply save_to_python_reads_before_opening.
  intros (filepath & modelname & pyname & text & d & _ & _ & _ & Hargs & _).
  discriminate Hargs.
Defined.

(** X11: once the payload is read, the handler opens the file and, if that
    fails, raises the error with nothing written; if the file opens, the
    handler writes the script once and closes the file whether or not the
    write succeeds.  It answers ['python script saved'] only when both the
    write and the close return; an error of the close is raised, also when
    the write had returned or had raised itself, and otherwise the error of
    the write is. *)
Theorem save_to_python_closes_the_file (X : Externals) (payload : json)
    (filepath modelname pyname args_text args_dict : json) (s : server X) :
  getitem payload "filepath" = Return filepath ->
  getitem payload "modelname" = Return modelname ->
  getitem payload "pyname" = Return pyname ->
  getitem payload "args" = Return args_text ->
  json_loads X args_text = Return args_dict ->
  let opened := codecs_open X filepath (world s) in
  save_to_python X payload s
  = match opened.1 with
    | Raise e =>
        (Raise e,
         {| MODULE_MODELRUN_MAP := MODULE_MODELRUN_MAP s;
            world := opened.2;
            trace := trace s ++ [EvOpen filepath] |})
    | Return py_file =>
        let text :=
          script_text (cli_version X) (now_strftime_c X opened.2)
            (py_str X modelname) (py_str X pyname) (render_args X args_dict) in
        let written := file_write X py_file text opened.2 in
        let closed := file_close X py_file written.2 in
        (match closed.1 with
         | Raise e => Raise e
         | Return _ =>
             match written.1 with
             | Return _ => Return "python script saved"
             | Raise e => Raise e
             end
         end,
         {| MODULE_MODELRUN_MAP := MODULE_MODELRUN_MAP s;
            world := closed.2;
            trace := trace s ++ [EvOpen filepath; EvWrite filepath text] |})
    end.
Proof.
  intros Hfile Hmodel Hpy Hargs Hloads opened. subst opened. run_handler.
  rewrite Hfile, Hmodel, Hpy, Hargs. cbn [fst snd]. rewrite Hloads.
  cbn [fst snd].
  destruct (codecs_open X filepath (world s)) as [[py_file|e] w1];
    cbn [fst snd world trace MODULE_MODELRUN_MAP]; [ | reflexivity ].
  rewrite format_script_template. cbn [fst snd world trace MODULE_MODELRUN_MAP].
  destruct (file_write X py_file _ w1).1;
    cbn [fst snd world trace MODULE_MODELRUN_MAP];
    destruct (file_close X py_file _).1;
    cbn [fst snd world trace MODULE_MODELRUN_MAP];
    rewrite <- app_assoc; reflexivity.
Qed.

Lemma save_to_python_closes_the_file_witness :
  (save_to_python Demo.env (plain_save_request JNull) Demo.s0).1
  = Raise (TypeError "expected str")
  /\ (save_to_python Demo.env (plain_save_request (JStr "/tmp/run_carbon.py"))
        Demo.s0).1
     = Return "python script saved"
  /\ (save_to_python full_device_env (plain_save_request (JStr "/dev/full"))
        (startup full_device_env Demo.empty_disk)).1
     = Raise (OSError "No space left on device").
Proof.
  split; [ | split ].
  - exact (f_equal fst
             (save_to_python_closes_the_file Demo.env (plain_save_request JNull)
                JNull (JStr "carbon") (JStr "natcap.invest.carbon")
                (JStr Demo.plain_args_text) Demo.plain_args Demo.s0
                eq_refl eq_refl eq_refl eq_refl eq_refl)).
  - exact (f_equal fst
             (save_to_python_closes_the_file Demo.env
                (plain_save_request (JStr "/tmp/run_carbon.py"))
                (JStr "/tmp/run_carbon.py") (JStr "carbon")
                (JStr "natcap.invest.carbon")
                (JStr Demo.plain_args_text) Demo.plain_args Demo.s0
                eq_refl eq_refl eq_refl eq_refl eq_refl)).
  - exact (f_equal fst
             (save_to_python_closes_the_file full_device_env
                (plain_save_request (JStr "/dev/full"))
                (JStr "/dev/full") (JStr "carbon")
                (JStr "natcap.invest.carbon")
                (JStr Demo.plain_args_text) Demo.plain_args
                (startup full_device_env Demo.empty_disk)
                eq_refl eq_refl eq_refl eq_refl eq_refl)).
Defined.

(** ** The script route: what the two [replace] calls do *)

Lemma string_append_assoc (a b c : string) : (a +:+ b) +:+ c = a +:+ (b +:+ c).
Proof.
  induction a as [|x a IH]; [ reflexivity | ].
  change (String x ((a +:+ b) +:+ c) = String x (a +:+ (b +:+ c))).
  rewrite IH. reflexivity.
Qed.

Lemma replace_one_char (c : ascii) (new : string) (c' : ascii) (rest : string) :
  replace (String c EmptyString) new (String c' rest)
  = if Ascii.eqb c c' then new +:+ replace (String c EmptyString) new rest
    else String c' (replace (String c EmptyString) new rest).
Proof.
  cbn. destruct (ascii_dec c c') as [->|Hne].
  - rewrite Ascii.eqb_refl. destruct rest; reflexivity.
  - apply Ascii.eqb_neq in Hne. rewrite Hne. reflexivity.
Qed.

Lemma replace_one_char_app (c : ascii) (new a b : string) :
  replace (String c EmptyString) new (a +:+ b)
  = replace (String c EmptyString) new a +:+ replace (String c EmptyString) new b.
Proof.
  induction a as [|c' a IH].
  - reflexivity.
  - change (String c' a +:+ b) with (String c' (a +:+ b)).
    rewrite !replace_one_char, IH.
    destruct (Ascii.eqb c c'); [ | reflexivity ].
    symmetry. apply string_append_assoc.
Qed.

Lemma replace_braces (text : string) :
  replace "}" ("," +:+ nl +:+ "}") (replace "{" ("{" +:+ nl +:+ " ") text)
  = spread_braces text.
Proof.
  induction text as [|c text IH].
  - reflexivity.
  - rewrite (replace_one_char "{"). cbn [spread_braces]. unfold spread_brace.
    destruct (Ascii.eqb_spec "{"%char c) as [<-|Hopen].
    + rewrite replace_one_char_app, IH. reflexivity.
    + rewrite (replace_one_char "}"), IH.
      destruct (Ascii.eqb_spec "}"%char c) as [<-|Hclose].
      * reflexivity.
      * destruct (Ascii.eqb_spec c "{"%char) as [->|_]; [ contradiction | ].
        destruct (Ascii.eqb_spec c "}"%char) as [->|_]; [ contradiction | ].
        reflexivity.
Qed.

Lemma spread_braces_app (a b : string) :
  spread_braces (a +:+ b) = spread_braces a +:+ spread_braces b.
Proof.
  induction a as [|c a IH]; [ reflexivity | ].
  change (String c a +:+ b) with (String c (a +:+ b)).
  cbn [spread_braces]. rewrite IH. symmetry. apply string_append_assoc.
Qed.

Lemma spread_braces_none (text : string) :
  occurs "{" text = false -> occurs "}" text = false ->
  spread_braces text = text.
Proof.
  induction text as [|c text IH]; [ reflexivity | ].
  cbn [occurs spread_braces]. intros Hopen Hclose.
  apply orb_false_iff in Hopen as [Hopen Hrest].
  apply orb_false_iff in Hclose as [Hclose Hrest'].
  rewrite (IH Hrest Hrest'). unfold spread_brace.
  rewrite Ascii.eqb_sym, Hopen, Ascii.eqb_sym, Hclose. reflexivity.
Qed.

(** X12: whatever [pprint] renders, the text put after [args = ] is that
    rendering with every opening brace followed by a line break and a
    space, every closing brace preceded by a comma and a line break, and
    every other character as it was: the two [replace] calls do not
    interfere with one another. *)
Theorem render_args_spreads_every_brace (X : Externals) (args_dict : json) :
  render_args X args_dict = spread_braces (pformat X args_dict).
Proof. unfold render_args. apply replace_braces. Qed.

(** X13: when [pprint] renders the mapping with one pair of braces, the
    outer one, the text put after [args = ] is the rendering with its first
    item moved to the next line and a comma and a line break after its last
    item, as the comment of [save_to_python] says. *)
Theorem render_args_of_flat_mapping (X : Externals) (args_dict : json)
    (body : string) :
  pformat X args_dict = "{" +:+ body +:+ "}" ->
  occurs "{" body = false ->
  occurs "}" body = false ->
  render_args X args_dict = "{" +:+ nl +:+ " " +:+ body +:+ "," +:+ nl +:+ "}".
Proof.
  intros Hpformat Hopen Hclose. unfold render_args.
  rewrite replace_braces, Hpformat.
  change ("{" +:+ body +:+ "}") with (String "{" (body +:+ "}")).
  cbn [spread_braces]. rewrite spread_braces_app.
  rewrite (spread_braces_none body Hopen Hclose). reflexivity.
Qed.

Lemma render_args_of_flat_mapping_witness :
  render_args Demo.env Demo.plain_args
  = "{" +:+ nl +:+ " " +:+ "'workspace_dir': '/tmp/carbon'" +:+ "," +:+ nl +:+ "}".
Proof.
  apply (render_args_of_flat_mapping Demo.env Demo.plain_args
           "'workspace_dir': '/tmp/carbon'"); reflexivity.
Defined.

(** ** The vector routes: what is answered and what is logged *)

(** X14: when the vector opens and its schema is read, the column-names
    route answers with exactly the field names of the schema, in their
    order, and logs no error: its trace is the two debug lines around the
    two calls to GDAL. *)
Theorem colnames_lists_the_schema (X : Externals) (payload vector_path : json)
    (s : server X) (vector : Vector X) (names : list string) (w1 w2 : World X) :
  getitem payload "vector_path" = Return vector_path ->
  truthy vector_path = true ->
  gdal_OpenEx X vector_path (world s) = (Return (Some vector), w1) ->
  schema_names X vector w1 = (Return names, w2) ->
  get_vector_colnames X payload s
  = (Return (json_dumps X (colnames_object names)),
     {| MODULE_MODELRUN_MAP := MODULE_MODELRUN_MAP s;
        world := w2;
        trace := trace s ++ [EvLog DEBUG (py_str X payload);
                             EvOpenEx vector_path;
                             EvSchema vector_path;
                             EvLog DEBUG (py_str X (colnames_object names))] |}).
Proof.
  intros Hpath Htrue Hopen Hschema. run_handler.
  rewrite Hpath. cbn [fst snd]. rewrite Htrue.
  cbn [fst snd world trace MODULE_MODELRUN_MAP]. rewrite Hopen.
  cbn [fst snd world trace MODULE_MODELRUN_MAP]. rewrite Hschema.
  cbn [fst snd world trace MODULE_MODELRUN_MAP].
  rewrite <- !app_assoc. reflexivity.
Qed.

Lemma colnames_lists_the_schema_witness :
  (get_vector_colnames Demo.env (JObj [("vector_path", JStr Demo.watersheds)])
     Demo.s0).1
  = Return (json_dumps Demo.env (colnames_object ["ws_id"; "name"])).
Proof.
  exact (f_equal fst
           (colnames_lists_the_schema Demo.env
              (JObj [("vector_path", JStr Demo.watersheds)])
              (JStr Demo.watersheds) Demo.s0 ["ws_id"; "name"] ["ws_id"; "name"]
              Demo.empty_disk Demo.empty_disk eq_refl eq_refl eq_refl eq_refl)).
Defined.

(** X15: a failure that the column-names route swallows is never silent on
    the server: whenever the path is tried and opening or reading fails,
    the line ['Could not read column names from <path>'] is logged at error
    level. *)
Theorem colnames_failure_is_logged (X : Externals) (payload vector_path : json)
    (s : server X) :
  getitem payload "vector_path" = Return vector_path ->
  truthy vector_path = true ->
  read_fails X vector_path (world s) ->
  In (EvLog ERROR ("Could not read column names from " +:+ py_str X vector_path))
     (trace (get_vector_colnames X payload s).2).
Proof.
  intros Hpath Htrue Hfail. run_handler.
  rewrite Hpath. cbn [fst snd]. rewrite Htrue.
  cbn [fst snd world trace MODULE_MODELRUN_MAP].
  destruct Hfail as [[e He] | [Hnone | (v & e & Hv & He)]].
  - rewrite He. cbn. rewrite !in_app_iff. cbn. tauto.
  - rewrite Hnone. cbn. rewrite !in_app_iff. cbn. tauto.
  - rewrite Hv. cbn [fst snd world trace MODULE_MODELRUN_MAP]. rewrite He.
    cbn. rewrite !in_app_iff. cbn. tauto.
Qed.

Lemma colnames_failure_is_logged_witness :
  In (EvLog ERROR "Could not read column names from /data/missing.shp")
     (trace (get_vector_colnames Demo.env
               (JObj [("vector_path", JStr "/data/missing.shp")]) Demo.s0).2).
Proof.
  apply (colnames_failure_is_logged Demo.env
           (JObj [("vector_path", JStr "/data/missing.shp")])
           (JStr "/data/missing.shp") Demo.s0 eq_refl eq_refl).
  right; left. reflexivity.
Defined.

(** X16: likewise for the point check: whenever the probe is run and
    raises, the line ['Could not tell if vector <path> contains points.']
    is logged at error level; and when the probe returns, the route logs
    no error, its trace being the two debug lines around the probe. *)
Theorem has_points_failure_is_logged (X : Externals) (payload vector_path : json)
    (s : server X) :
  getitem payload "vector_path" = Return vector_path ->
  truthy vector_path = true ->
  let probe := _vector_may_contain_points X vector_path (world s) in
  match probe.1 with
  | Raise _ =>
      trace (get_vector_has_points X payload s).2
      = (trace s ++ [EvLog DEBUG (py_str X payload);
                     EvProbe vector_path;
                     EvLog ERROR ("Could not tell if vector "
                                  +:+ py_str X vector_path
                                  +:+ " contains points.");
                     EvLog DEBUG (py_str X (has_points_object true))])%list
  | Return b =>
      trace (get_vector_has_points X payload s).2
      = (trace s ++ [EvLog DEBUG (py_str X payload);
                     EvProbe vector_path;
                     EvLog DEBUG (py_str X (has_points_object b))])%list
  end.
Proof.
  intros Hpath Htrue probe. subst probe. run_handler.
  rewrite Hpath. cbn [fst snd]. rewrite Htrue.
  cbn [fst snd world trace MODULE_MODELRUN_MAP].
  destruct (_vector_may_contain_points X vector_path (world s)).1;
    cbn [fst snd world trace MODULE_MODELRUN_MAP];
    rewrite <- !app_assoc; reflexivity.
Qed.

Lemma has_points_failure_is_logged_witness :
  trace (get_vector_has_points Demo.env
           (JObj [("vector_path", JStr "/data/missing.shp")]) Demo.s0).2
  = [EvLog DEBUG (py_str Demo.env (JObj [("vector_path", JStr "/data/missing.shp")]));
     EvProbe (JStr "/data/missing.shp");
     EvLog ERROR "Could not tell if vector /data/missing.shp contains points.";
     EvLog DEBUG (py_str Demo.env (has_points_object true))].
Proof.
  exact (has_points_failure_is_logged Demo.env
           (JObj [("vector_path", JStr "/data/missing.shp")])
           (JStr "/data/missing.shp") Demo.s0 eq_refl eq_refl).
Defined.

(** ** The vector routes on a path that Python counts as false *)

(** X18: the guard [if vector_path:] is Python's truth test.  A path that
    is [null], [false], a zero, the empty string, an empty list or an empty
    object is skipped: both routes answer their default, having written
    their two debug lines and nothing else.  Every other path, a string or
    not, is tried: the column-names route calls [gdal.OpenEx] on it right
    after its first debug line (and reads the schema of what opens), the
    point check runs the probe on it, and the world is what these calls
    leave. *)
Theorem vector_routes_skip_false_paths (X : Externals) (payload vector_path : json)
    (s : server X) :
  getitem payload "vector_path" = Return vector_path ->
  (truthy vector_path = false <->
   vector_path = JNull \/ vector_path = JBool false \/ vector_path = JInt 0
   \/ vector_path = JStr "" \/ vector_path = JArr [] \/ vector_path = JObj []
   \/ exists f, vector_path = JFloat f
                /\ PrimFloat.eqb f PrimFloat.zero = true)
  /\ (truthy vector_path = false ->
      get_vector_colnames X payload s
      = (Return (json_dumps X (colnames_object [])),
         logged s [EvLog DEBUG (py_str X payload);
                   EvLog DEBUG (py_str X (colnames_object []))])
      /\ get_vector_has_points X payload s
         = (Return (json_dumps X (has_points_object true)),
            logged s [EvLog DEBUG (py_str X payload);
                      EvLog DEBUG (py_str X (has_points_object true))]))
  /\ (truthy vector_path = true ->
      let opened := gdal_OpenEx X vector_path (world s) in
      let probe := _vector_may_contain_points X vector_path (world s) in
      (exists rest,
          trace (get_vector_colnames X payload s).2
          = (trace s ++ EvLog DEBUG (py_str X payload)
                        :: EvOpenEx vector_path :: rest)%list)
      /\ world (get_vector_colnames X payload s).2
         = match opened.1 with
           | Return (Some vector) => (schema_names X vector opened.2).2
           | _ => opened.2
           end
      /\ (exists rest,
             trace (get_vector_has_points X payload s).2
             = (trace s ++ EvLog DEBUG (py_str X payload)
                           :: EvProbe vector_path :: rest)%list)
      /\ world (get_vector_has_points X payload s).2 = probe.2).
Proof.
  intros Hpath. split; [ | split ].
  - split.
    + intros Hfalse.
      destruct vector_path as [ |b|z|f|p|elems|items]; cbn in Hfalse.
      * auto.
      * subst b. auto.
      * apply negb_false_iff, Z.eqb_eq in Hfalse. subst z. auto.
      * apply negb_false_iff in Hfalse. eauto 10.
      * destruct p; [ auto 10 | discriminate ].
      * destruct elems; [ auto 10 | discriminate ].
      * destruct items; [ auto 10 | discriminate ].
    + intros [-> | [-> | [-> | [-> | [-> | [-> | (f & -> & Hzero)]]]]]];
        cbn; try reflexivity.
      rewrite Hzero. reflexivity.
  - intros Hfalse. split.
    + run_handler. rewrite Hpath. cbn [fst snd]. rewrite Hfalse. cbn.
      rewrite <- app_assoc. reflexivity.
    + run_handler. rewrite Hpath. cbn [fst snd]. rewrite Hfalse. cbn.
      rewrite <- app_assoc. reflexivity.
  - intros Htrue opened probe. subst opened probe. repeat split.
    + run_handler. rewrite Hpath. cbn [fst snd]. rewrite Htrue.
      cbn [fst snd world trace MODULE_MODELRUN_MAP].
      destruct (gdal_OpenEx X vector_path (world s)).1 as [[vector|]|e];
        cbn [fst snd world trace MODULE_MODELRUN_MAP];
        try destruct (schema_names X vector _).1;
        cbn [fst snd world trace MODULE_MODELRUN_MAP];
        rewrite <- !app_assoc; cbn [app]; eauto.
    + run_handler. rewrite Hpath. cbn [fst snd]. rewrite Htrue.
      cbn [fst snd world trace MODULE_MODELRUN_MAP].
      destruct (gdal_OpenEx X vector_path (world s)).1 as [[vector|]|e];
        cbn [fst snd world trace MODULE_MODELRUN_MAP];
        try destruct (schema_names X vector _).1;
        reflexivity.
    + run_handler. rewrite Hpath. cbn [fst snd]. rewrite Htrue.
      cbn [fst snd world trace MODULE_MODELRUN_MAP].
      destruct (_vector_may_contain_points X vector_path (world s)).1;
        cbn [fst snd world trace MODULE_MODELRUN_MAP];
        rewrite <- !app_assoc; cbn [app]; eauto.
    + run_handler. rewrite Hpath. cbn [fst snd]. rewrite Htrue.
      cbn [fst snd world trace MODULE_MODELRUN_MAP].
      destruct (_vector_may_contain_points X vector_path (world s)).1;
        reflexivity.
Qed.

Lemma vector_routes_skip_false_paths_witness :
  get_vector_colnames Demo.env (JObj [("vector_path", JNull)]) Demo.s0
  = (Return (json_dumps Demo.env (colnames_object [])),
     logged Demo.s0
       [EvLog DEBUG (py_str Demo.env (JObj [("vector_path", JNull)]));
        EvLog DEBUG (py_str Demo.env (colnames_object []))])
  /\ exists rest,
       trace (get_vector_colnames Demo.env (JObj [("vector_path", JInt 5)])
                Demo.s0).2
       = (trace Demo.s0
          ++ EvLog DEBUG (py_str Demo.env (JObj [("vector_path", JInt 5)]))
             :: EvOpenEx (JInt 5) :: rest)%list.
Proof.
  split.
  - exact (proj1 (proj1 (proj2 (vector_routes_skip_false_paths Demo.env
                                  (JObj [("vector_path", JNull)]) JNull Demo.s0
                                  eq_refl)) eq_refl)).
  - exact (proj1 (proj2 (proj2 (vector_routes_skip_false_paths Demo.env
                                  (JObj [("vector_path", JInt 5)]) (JInt 5)
                                  Demo.s0 eq_refl)) eq_refl)).
Defined.
